(** * The [run_webset_research] tool of exa-mcp-server

    A shallow embedding of [src/tools/websetResearch.ts]: the creation
    payload [websetParams], the create / poll / fetch workflow of
    [handler], and the outer catch that turns errors into tool results.

    The handler talks to three things it does not own: the process
    environment (the credential), the HTTP transport (axios) and the
    request logger.  They are modelled as explicit data: the credential is
    an [option string], the remote service is a [World] that scripts the
    reply to every call, and every call the handler makes (HTTP request,
    [sleep], log line) is appended to a trace of [event]s in the order the
    source performs them. *)

From Stdlib Require Import String Ascii List Bool Arith ZArith NArith Lia.
From Stdlib Require Import DecimalString.
Import ListNotations.
Local Open Scope string_scope.
Set Warnings "-register-all".

(* ===================================================================== *)
(** ** JavaScript values *)
(* ===================================================================== *)

Module JS.

(** A JavaScript number.  A finite non-zero double is carried by the
    integers [s] and [n] of its shortest decimal form, the ones
    Number::toString names: the value is [s * 10^(n-k)], [k] the number of
    digits of [s]. *)
Inductive number : Type :=
| NaN
| Infinity (negative : bool)
| Zero (negative : bool)
| Finite (negative : bool) (s : positive) (n : Z).

(** The values that travel as JSON: tool arguments, request bodies and
    response bodies.  An object is its list of own properties in insertion
    order, with distinct keys. *)
Inductive json : Type :=
| JNull
| JBool (b : bool)
| JNum (x : number)
| JStr (s : string)
| JArr (elements : list json)
| JObj (properties : list (string * json)).

(** ToBoolean on the values the source tests. *)
Definition truthy_number (x : number) : bool :=
  match x with
  | NaN | Zero _ => false
  | Infinity _ | Finite _ _ _ => true
  end.

Definition truthy_string (s : string) : bool :=
  match s with
  | EmptyString => false
  | String _ _ => true
  end.

Definition truthy (v : json) : bool :=
  match v with
  | JNull => false
  | JBool b => b
  | JNum x => truthy_number x
  | JStr s => truthy_string s
  | JArr _ | JObj _ => true
  end.

(** An argument that was not supplied is [undefined], which is falsy. *)
Definition truthy_opt {A : Type} (t : A -> bool) (o : option A) : bool :=
  match o with
  | None => false
  | Some a => t a
  end.

(** *** Strings of digits *)

Definition nl : string := String (ascii_of_nat 10) EmptyString.
Definition dquote : string := String (ascii_of_nat 34) EmptyString.

Definition string_of_N (n : N) : string := NilEmpty.string_of_uint (N.to_uint n).
Definition string_of_nat (n : nat) : string := NilEmpty.string_of_uint (Nat.to_uint n).
Definition string_of_bool (b : bool) : string := if b then "true" else "false".

Fixpoint zeros (n : nat) : string :=
  match n with
  | O => EmptyString
  | S m => String "0" (zeros m)
  end.

(** Number::toString(x, 10). *)
Definition finite_toString (s : positive) (n : Z) : string :=
  let digits := NilEmpty.string_of_uint (Pos.to_uint s) in
  let k := Z.of_nat (String.length digits) in
  let exponent (e : Z) :=
    "e" ++ (if (0 <=? e)%Z then "+" else "-") ++ string_of_N (Z.abs_N e) in
  if ((k <=? n) && (n <=? 21))%Z then
    digits ++ zeros (Z.to_nat (n - k))
  else if ((0 <? n) && (n <=? 21))%Z then
    substring 0 (Z.to_nat n) digits ++ "." ++
    substring (Z.to_nat n) (Z.to_nat (k - n)) digits
  else if ((-6 <? n) && (n <=? 0))%Z then
    "0." ++ zeros (Z.to_nat (- n)) ++ digits
  else if (k =? 1)%Z then
    digits ++ exponent (n - 1)%Z
  else
    substring 0 1 digits ++ "." ++
    substring 1 (Z.to_nat (k - 1)) digits ++ exponent (n - 1)%Z.

Definition Number_toString (x : number) : string :=
  match x with
  | NaN => "NaN"
  | Zero _ => "0"
  | Infinity negative => if negative then "-Infinity" else "Infinity"
  | Finite negative s n =>
      (if negative then "-" else "") ++ finite_toString s n
  end.

Definition isFinite (x : number) : bool :=
  match x with
  | NaN | Infinity _ => false
  | Zero _ | Finite _ _ _ => true
  end.

Fixpoint join (sep : string) (l : list string) : string :=
  match l with
  | [] => EmptyString
  | [x] => x
  | x :: rest => x ++ sep ++ join sep rest
  end.

(** ToString, as a template literal applies it; [None] is the TypeError of
    a value that has no primitive form.  An object prints through
    Object.prototype.toString unless it has an own [toString] key: a JSON
    value under that key is not callable, and [valueOf] gives the object
    back, so the conversion throws.  An array prints through [join], which
    converts each element and so throws when one of them does. *)
Definition has_own_toString (properties : list (string * json)) : bool :=
  existsb (fun p => String.eqb "toString" (fst p)) properties.

Fixpoint ToString (v : json) : option string :=
  match v with
  | JNull => Some "null"
  | JBool b => Some (string_of_bool b)
  | JNum x => Some (Number_toString x)
  | JStr s => Some s
  | JArr elements =>
      option_map (join ",")
        ((fix each (l : list json) : option (list string) :=
            match l with
            | [] => Some []
            | e :: rest =>
                match match e with
                      | JNull => Some EmptyString
                      | _ => ToString e
                      end with
                | Some s =>
                    match each rest with
                    | Some ss => Some (s :: ss)
                    | None => None
                    end
                | None => None
                end
            end) elements)
  | JObj properties =>
      if has_own_toString properties then None else Some "[object Object]"
  end.

(** *** JSON.stringify(value, null, 2) *)

Definition hex_digit (n : nat) : ascii :=
  match n with
  | 10 => "a" | 11 => "b" | 12 => "c" | 13 => "d" | 14 => "e" | 15 => "f"
  | _ => ascii_of_nat (48 + n)
  end%char.

(** One character of QuoteJSONString.  A string is its UTF-8 bytes; the
    bytes of a character above U+007F pass through unchanged. *)
Definition quote_char (c : ascii) : string :=
  let n := nat_of_ascii c in
  let backslash := String (ascii_of_nat 92) EmptyString in
  match n with
  | 8 => backslash ++ "b"
  | 9 => backslash ++ "t"
  | 10 => backslash ++ "n"
  | 12 => backslash ++ "f"
  | 13 => backslash ++ "r"
  | 34 => backslash ++ dquote
  | 92 => backslash ++ backslash
  | _ =>
      if Nat.ltb n 32 then
        backslash ++ "u00" ++
        String (hex_digit (n / 16)) (String (hex_digit (n mod 16)) EmptyString)
      else String c EmptyString
  end.

Fixpoint quote_chars (s : string) : string :=
  match s with
  | EmptyString => EmptyString
  | String c rest => quote_char c ++ quote_chars rest
  end.

Definition QuoteJSONString (s : string) : string :=
  dquote ++ quote_chars s ++ dquote.

Definition gap : string := "  ".

Fixpoint SerializeJSONProperty (indent : string) (v : json) : string :=
  match v with
  | JNull => "null"
  | JBool b => string_of_bool b
  | JNum x => if isFinite x then Number_toString x else "null"
  | JStr s => QuoteJSONString s
  | JArr elements =>
      match elements with
      | [] => "[]"
      | _ =>
          let inner := indent ++ gap in
          "[" ++ nl ++ inner ++
          join ("," ++ nl ++ inner)
               (map (SerializeJSONProperty inner) elements) ++
          nl ++ indent ++ "]"
      end
  | JObj properties =>
      match properties with
      | [] => "{}"
      | _ =>
          let inner := indent ++ gap in
          "{" ++ nl ++ inner ++
          join ("," ++ nl ++ inner)
               (map (fun p => match p with
                              | (k, e) =>
                                  QuoteJSONString k ++ ": " ++
                                  SerializeJSONProperty inner e
                              end) properties) ++
          nl ++ indent ++ "}"
      end
  end.

Definition JSON_stringify (v : json) : string :=
  SerializeJSONProperty EmptyString v.

(** Own-property lookup, [o.k] on an object. *)
Fixpoint get_property (k : string) (properties : list (string * json))
  : option json :=
  match properties with
  | [] => None
  | (k', v) :: rest => if String.eqb k k' then Some v else get_property k rest
  end.

Definition keys (properties : list (string * json)) : list string :=
  map fst properties.

End JS.

Import JS.

(* ===================================================================== *)
(** ** The tool's arguments and the creation payload *)
(* ===================================================================== *)

(** [enrichmentSchema]: one enrichment task. *)
Record Enrichment : Type := {
  description : string;
  format : string
}.

(** The arguments the handler destructures.  An optional argument that was
    not supplied is [None] (JavaScript's [undefined]). *)
Record Args : Type := {
  query : string;
  count : option number;
  criteria : option string;
  entityType : option string;
  enrichments : option (list Enrichment);
  metadata : option (list (string * json));
  waitForCompletion : bool
}.

(** [z.boolean().optional().default(true)]: the schema fills the wait flag
    in before the handler runs. *)
Definition waitForCompletion_schema (supplied : option bool) : bool :=
  match supplied with
  | Some b => b
  | None => true
  end.

(** A request in which only the query is given. *)
Definition query_only (q : string) : Args :=
  {| query := q; count := None; criteria := None; entityType := None;
     enrichments := None; metadata := None;
     waitForCompletion := waitForCompletion_schema None |}.

Definition enrichment_json (e : Enrichment) : json :=
  JObj [("description", JStr (description e)); ("format", JStr (format e))].

(** [...(c && { ... })]: spreading a falsy value adds no property. *)
Definition spread_if (c : bool) (properties : list (string * json))
  : list (string * json) :=
  if c then properties else [].

(** [enrichments && enrichments.length > 0] *)
Definition nonempty_list {A : Type} (l : list A) : bool :=
  Nat.ltb 0 (List.length l).

(** The properties the object literal [websetParams] spreads in, each under
    its own guard. *)
Definition count_property (a : Args) : list (string * json) :=
  match count a with
  | Some c => spread_if (truthy_number c) [("count", JNum c)]
  | None => []
  end.

Definition criteria_property (a : Args) : list (string * json) :=
  match criteria a with
  | Some c => spread_if (truthy_string c) [("criteria", JStr c)]
  | None => []
  end.

Definition entity_property (a : Args) : list (string * json) :=
  match entityType a with
  | Some t => spread_if (truthy_string t) [("entity", JObj [("type", JStr t)])]
  | None => []
  end.

Definition enrichments_property (a : Args) : list (string * json) :=
  match enrichments a with
  | Some l =>
      spread_if (nonempty_list l)
                [("enrichments", JArr (map enrichment_json l))]
  | None => []
  end.

Definition metadata_property (a : Args) : list (string * json) :=
  match metadata a with
  | Some m => [("metadata", JObj m)]
  | None => []
  end.

Definition search_config (a : Args) : list (string * json) :=
  ("query", JStr (query a)) :: count_property a.

Definition websetParams_properties (a : Args) : list (string * json) :=
  [("search", JObj (search_config a))]
    ++ criteria_property a
    ++ entity_property a
    ++ enrichments_property a
    ++ metadata_property a.

Definition websetParams (a : Args) : json :=
  JObj (websetParams_properties a).

(* ===================================================================== *)
(** ** The transport, the logger and the trace *)
(* ===================================================================== *)

(** The part of an axios response the error path reads. *)
Record AxiosResponse : Type := {
  response_status : N;
  response_data : json
}.

Record AxiosError : Type := {
  axios_message : string;
  response : option AxiosResponse
}.

(** What can be thrown inside the handler: a rejection of an axios call, or
    another [Error], one the handler builds itself or a TypeError of the
    runtime.  All are instances of Error. *)
Inductive js_error : Type :=
| Axios (e : AxiosError)
| Error (message : string).

Definition error_message (e : js_error) : string :=
  match e with
  | Axios a => axios_message a
  | Error m => m
  end.

(** The three calls of the handler. *)
Inductive request : Type :=
| CreateWebset (body : json)
| GetWebset (websetId : string)
| ListItems (websetId : string).

Definition request_method (r : request) : string :=
  match r with
  | CreateWebset _ => "POST"
  | GetWebset _ | ListItems _ => "GET"
  end.

Definition request_url (r : request) : string :=
  match r with
  | CreateWebset _ => "/websets/v0/websets/"
  | GetWebset websetId => "/websets/v0/websets/" ++ websetId
  | ListItems websetId => "/websets/v0/websets/" ++ websetId ++ "/items"
  end.

Inductive log_call : Type :=
| logger_start (msg : string)
| logger_log (msg : string)
| logger_error (msg : string)
| logger_error_object (e : js_error)
| logger_complete.

(** Everything the handler does to the outside, in order.  An HTTP call
    carries the [x-api-key] header of the axios instance that sends it. *)
Inductive event : Type :=
| Http (x_api_key : string) (r : request)
| Sleep (ms : N)
| Logged (l : log_call).

Definition trace : Type := list event.

(** Response bodies, as [types.ts] declares them: an answered creation call
    carries a string [id], an answered status call a string [status].  An
    answer of another shape (a body without [id], a [null] body) is outside
    this model, and so is everything said below about every [World]. *)
Record ExaWebsetCreateResponse : Type := { id : string }.
Record ExaWebsetStatusResponse : Type := { status : string }.

Inductive reply (A : Type) : Type :=
| Resolved (data : A)
| Rejected (e : AxiosError).
Arguments Resolved {A} data.
Arguments Rejected {A} e.

(** The remote service and the transport during one invocation: the reply
    to the creation call, to the k-th status call and to the k-th items
    call (k counted from 0). *)
Record World : Type := {
  create_reply : reply ExaWebsetCreateResponse;
  status_reply : nat -> reply ExaWebsetStatusResponse;
  items_reply : nat -> reply json
}.

Definition is_http (e : event) : bool :=
  match e with Http _ _ => true | _ => false end.

Definition is_create_call (e : event) : bool :=
  match e with Http _ (CreateWebset _) => true | _ => false end.

Definition is_status_call (e : event) : bool :=
  match e with Http _ (GetWebset _) => true | _ => false end.

Definition is_items_call (e : event) : bool :=
  match e with Http _ (ListItems _) => true | _ => false end.

Definition is_sleep (e : event) : bool :=
  match e with Sleep _ => true | _ => false end.

Definition calls (p : event -> bool) (tr : trace) : nat :=
  List.length (filter p tr).

(** The trace without its log lines. *)
Definition effects (tr : trace) : trace :=
  filter (fun e => match e with Logged _ => false | _ => true end) tr.

(* ===================================================================== *)
(** ** A monad for the handler: a growing trace, and exceptions *)
(* ===================================================================== *)

(** How a block of statements ends: normally with a value, or by a throw. *)
Inductive completion (A : Type) : Type :=
| Normal (a : A)
| Throw (e : js_error).
Arguments Normal {A} a.
Arguments Throw {A} e.

(** A computation extends the trace.  What was done before a throw stays
    done. *)
Definition M (A : Type) : Type := trace -> trace * completion A.

Definition ret {A : Type} (a : A) : M A := fun tr => (tr, Normal a).

Definition bind {A B : Type} (m : M A) (k : A -> M B) : M B :=
  fun tr =>
    match m tr with
    | (tr', Normal a) => k a tr'
    | (tr', Throw e) => (tr', Throw e)
    end.

Definition throw {A : Type} (e : js_error) : M A := fun tr => (tr, Throw e).

Definition try_catch {A : Type} (body : M A) (catch : js_error -> M A) : M A :=
  fun tr =>
    match body tr with
    | (tr', Normal a) => (tr', Normal a)
    | (tr', Throw e) => catch e tr'
    end.

Definition emit (e : event) : M unit := fun tr => ((tr ++ [e])%list, Normal tt).

Declare Scope js_scope.
Delimit Scope js_scope with js.
Notation "x <- c1 ;; c2" := (bind c1 (fun x => c2))
  (at level 61, c1 at next level, right associativity) : js_scope.
Notation "c1 ;; c2" := (bind c1 (fun _ => c2))
  (at level 61, right associativity) : js_scope.
Local Open Scope js_scope.

Definition logger (l : log_call) : M unit := emit (Logged l).

(** [const sleep = (ms) => new Promise(resolve => setTimeout(resolve, ms))] *)
Definition sleep (ms : N) : M unit := emit (Sleep ms).

(* ===================================================================== *)
(** ** The handler *)
(* ===================================================================== *)

(** What the handler returns: [{ content: [{ type: "text", text }] }], with
    [isError: true] on the failure paths and no [isError] key otherwise. *)
Record tool_result : Type := {
  text : string;
  isError : bool
}.

Definition maxAttempts : nat := 12.
Definition pollInterval : N := 5000.

(** [error.response?.status || 'unknown'], as the template prints it. *)
Definition statusCode (e : AxiosError) : string :=
  match response e with
  | Some r =>
      if N.eqb (response_status r) 0 then "unknown"
      else string_of_N (response_status r)
  | None => "unknown"
  end.

(** [error.response?.data?.message] *)
Definition data_message (e : AxiosError) : option json :=
  match response e with
  | Some r =>
      match response_data r with
      | JObj properties => get_property "message" properties
      | _ => None
      end
  | None => None
  end.

(** [error.response?.data?.message || error.message] *)
Definition errorMessage (e : AxiosError) : json :=
  match data_message e with
  | Some m => if truthy m then m else JStr (axios_message e)
  | None => JStr (axios_message e)
  end.

(** [`WebSet API error (${statusCode}): ${errorMessage}`]; [None] when the
    template literal throws. *)
Definition api_error_text (e : AxiosError) : option string :=
  match ToString (errorMessage e) with
  | Some message =>
      Some ("WebSet API error (" ++ statusCode e ++ "): " ++ message)
  | None => None
  end.

Definition operation_failed_text (e : js_error) : string :=
  "WebSet operation failed: " ++ error_message e.

(** The TypeError of a template literal over a value that has no primitive
    form (the message is the one of V8). *)
Definition not_primitive : js_error :=
  Error "Cannot convert object to primitive value".

(** The outer [catch (error)] block.  It holds two template literals over
    [errorMessage], the log line and the text; when the first throws, the
    throw leaves the handler. *)
Definition catch_error (error : js_error) : M tool_result :=
  logger (logger_error_object error) ;;
  match error with
  | Axios e =>
      match ToString (errorMessage e) with
      | Some message =>
          logger (logger_log ("Axios error (" ++ statusCode e ++ "): " ++
                              message)) ;;
          match api_error_text e with
          | Some text => ret {| text := text; isError := true |}
          | None => throw not_primitive
          end
      | None => throw not_primitive
      end
  | Error _ =>
      ret {| text := operation_failed_text error; isError := true |}
  end.

Definition initiated (websetId : string) : json :=
  JObj [("message", JStr "WebSet research initiated successfully.");
        ("websetId", JStr websetId);
        ("status", JStr "running")].

Definition completed_status (s : string) : bool :=
  String.eqb s "completed" || String.eqb s "idle".

Definition failed_status (s : string) : bool :=
  String.eqb s "failed" || String.eqb s "error".

Section Workflow.

(** The service the invocation runs against. *)
Variable w : World.

(** The axios instance: every request carries the key. *)
Variable apiKey : string.

Definition axios_call {A : Type} (r : request) (answer : reply A) : M A :=
  emit (Http apiKey r) ;;
  match answer with
  | Resolved data => ret data
  | Rejected e => throw (Axios e)
  end.

Definition axios_post_websets (body : json) : M ExaWebsetCreateResponse :=
  axios_call (CreateWebset body) (create_reply w).

Definition axios_get_webset (websetId : string) : M ExaWebsetStatusResponse :=
  fun tr =>
    axios_call (GetWebset websetId)
               (status_reply w (calls is_status_call tr)) tr.

Definition axios_get_items (websetId : string) : M json :=
  fun tr =>
    axios_call (ListItems websetId)
               (items_reply w (calls is_items_call tr)) tr.

(** The [try] block of one loop iteration.  [Some result] is the [return]
    inside the loop; [None] falls through to the next iteration. *)
Definition poll_try (websetId : string) (attempt : nat)
  : M (option tool_result) :=
  detailsResponse <- axios_get_webset websetId ;;
  let status := status detailsResponse in
  logger (logger_log ("Attempt " ++ string_of_nat attempt ++
                      ": WebSet status is '" ++ status ++ "'")) ;;
  if completed_status status then
    logger (logger_log ("WebSet " ++ websetId ++
                        " completed. Fetching items...")) ;;
    itemsResponse <- axios_get_items websetId ;;
    logger logger_complete ;;
    ret (Some {| text := JSON_stringify itemsResponse; isError := false |})
  else
    (if failed_status status then
       logger (logger_error ("WebSet " ++ websetId ++
                             " failed with status: " ++ status)) ;;
       throw (Error ("WebSet research failed with status: " ++ status))
     else ret tt) ;;
    sleep pollInterval ;;
    ret None.

(** The [catch (pollError)] block of one loop iteration. *)
Definition poll_catch (attempt : nat) (pollError : js_error)
  : M (option tool_result) :=
  logger (logger_error ("Polling attempt " ++ string_of_nat attempt ++
                        " failed: " ++ error_message pollError)) ;;
  (if Nat.eqb attempt maxAttempts then
     throw (Error ("Failed to get WebSet status after " ++
                   string_of_nat maxAttempts ++ " attempts."))
   else ret tt) ;;
  sleep pollInterval ;;
  ret None.

Definition poll_attempt (websetId : string) (attempt : nat)
  : M (option tool_result) :=
  try_catch (poll_try websetId attempt) (poll_catch attempt).

(** [for (let attempt = 1; attempt <= maxAttempts; attempt++)], over the
    values [attempt] takes, and the two statements after the loop. *)
Fixpoint poll_loop (websetId : string) (attempts : list nat) : M tool_result :=
  match attempts with
  | [] =>
      logger (logger_error ("WebSet " ++ websetId ++
                            " did not complete within the timeout period.")) ;;
      throw (Error "WebSet research timed out.")
  | attempt :: rest =>
      returned <- poll_attempt websetId attempt ;;
      match returned with
      | Some result => ret result
      | None => poll_loop websetId rest
      end
  end.

(** The attempts from [attempt] up to [maxAttempts]. *)
Definition attempts_from (attempt : nat) : list nat :=
  seq attempt (S maxAttempts - attempt).

(** The outer [try] block. *)
Definition workflow (args : Args) : M tool_result :=
  logger (logger_log "Sending request to create WebSet...") ;;
  createResponse <- axios_post_websets (websetParams args) ;;
  let websetId := id createResponse in
  logger (logger_log ("WebSet created with ID: " ++ websetId)) ;;
  if negb (waitForCompletion args) then
    logger logger_complete ;;
    ret {| text := JSON_stringify (initiated websetId); isError := false |}
  else
    logger (logger_log ("Waiting for WebSet " ++ websetId ++
                        " completion...")) ;;
    poll_loop websetId (attempts_from 1).

End Workflow.

(** [process.env.EXA_API_KEY || ''] *)
Definition apiKey_of (EXA_API_KEY : option string) : string :=
  match EXA_API_KEY with
  | Some k => k
  | None => EmptyString
  end.

Definition configuration_error : tool_result :=
  {| text := "Configuration error: EXA_API_KEY is missing."; isError := true |}.

(** The handler of [toolRegistry["run_webset_research"]], as a computation
    on the trace. *)
Definition handler_body (w : World) (EXA_API_KEY : option string) (args : Args)
  : M tool_result :=
  logger (logger_start ("Query: " ++ query args ++ ", Wait: " ++
                        string_of_bool (waitForCompletion args))) ;;
  let apiKey := apiKey_of EXA_API_KEY in
  if negb (truthy_string apiKey) then
    logger (logger_error "EXA_API_KEY is not set.") ;;
    ret configuration_error
  else
    try_catch (workflow w apiKey args) catch_error.

(** One invocation: the trace it leaves and how it ends. *)
Definition handler (w : World) (EXA_API_KEY : option string) (args : Args)
  : trace * completion tool_result :=
  handler_body w EXA_API_KEY args [].

(* ===================================================================== *)
(** ** Field updates and key tests used in the statements *)
(* ===================================================================== *)

Definition set_count (c : option number) (a : Args) : Args :=
  {| query := query a; count := c; criteria := criteria a;
     entityType := entityType a; enrichments := enrichments a;
     metadata := metadata a; waitForCompletion := waitForCompletion a |}.

Definition set_criteria (c : option string) (a : Args) : Args :=
  {| query := query a; count := count a; criteria := c;
     entityType := entityType a; enrichments := enrichments a;
     metadata := metadata a; waitForCompletion := waitForCompletion a |}.

Definition set_entityType (t : option string) (a : Args) : Args :=
  {| query := query a; count := count a; criteria := criteria a;
     entityType := t; enrichments := enrichments a;
     metadata := metadata a; waitForCompletion := waitForCompletion a |}.

Definition set_enrichments (l : option (list Enrichment)) (a : Args) : Args :=
  {| query := query a; count := count a; criteria := criteria a;
     entityType := entityType a; enrichments := l;
     metadata := metadata a; waitForCompletion := waitForCompletion a |}.

Definition set_metadata (m : option (list (string * json))) (a : Args) : Args :=
  {| query := query a; count := count a; criteria := criteria a;
     entityType := entityType a; enrichments := enrichments a;
     metadata := m; waitForCompletion := waitForCompletion a |}.

(** [k in o] for an object given by its properties. *)
Definition has_key (k : string) (properties : list (string * json)) : bool :=
  existsb (String.eqb k) (keys properties).

(** The rest of an invocation whose loop is about to start [attempt]: the
    loop from there on, inside the outer [try]. *)
Definition resume (w : World) (apiKey websetId : string) (attempt : nat)
  : M tool_result :=
  try_catch (poll_loop w apiKey websetId (attempts_from attempt)) catch_error.

(** The trace of a waiting invocation when it enters the loop. *)
Definition entering_loop (apiKey websetId : string) (args : Args) : trace :=
  [Logged (logger_start ("Query: " ++ query args ++ ", Wait: true"));
   Logged (logger_log "Sending request to create WebSet...");
   Http apiKey (CreateWebset (websetParams args));
   Logged (logger_log ("WebSet created with ID: " ++ websetId));
   Logged (logger_log ("Waiting for WebSet " ++ websetId ++ " completion..."))].

(** The iterations in which the status stays [s], neither completion- nor
    failure-equivalent. *)
Definition pending_rounds (apiKey websetId s : string) (attempts : list nat)
  : trace :=
  flat_map (fun attempt =>
              [Http apiKey (GetWebset websetId);
               Logged (logger_log ("Attempt " ++ string_of_nat attempt ++
                                   ": WebSet status is '" ++ s ++ "'"));
               Sleep pollInterval]) attempts.

(** The log lines of one iteration, and the error of the exhausted polls. *)
Definition attempt_line (attempt : nat) (s : string) : event :=
  Logged (logger_log ("Attempt " ++ string_of_nat attempt ++
                      ": WebSet status is '" ++ s ++ "'")).

Definition failed_line (attempt : nat) (msg : string) : event :=
  Logged (logger_error ("Polling attempt " ++ string_of_nat attempt ++
                        " failed: " ++ msg)).

Definition gave_up : js_error :=
  Error "Failed to get WebSet status after 12 attempts.".

(** An event that is not a creation call. *)
Definition quiet (e : event) : Prop := is_create_call e = false.

(** [m] only appends to the trace, and what it appends satisfies [P]. *)
Definition appends (P : event -> Prop) {A : Type} (m : M A) : Prop :=
  forall tr, exists added,
    fst (m tr) = (tr ++ added)%list /\ Forall P added.

(* ===================================================================== *)
(** ** Concrete invocations *)
(* ===================================================================== *)

Module Sample.

Definition created : reply ExaWebsetCreateResponse :=
  Resolved {| id := "ws_1" |}.

Definition reports (s : string) : reply ExaWebsetStatusResponse :=
  Resolved {| status := s |}.

Definition items : json :=
  JObj [("items",
         JArr [JObj [("id", JStr "item_1"); ("url", JStr "https://exa.ai")]])].

Definition unavailable : AxiosError :=
  {| axios_message := "Request failed with status code 503";
     response := Some {| response_status := 503;
                         response_data :=
                           JObj [("message", JStr "Service Unavailable")] |} |}.

Definition no_response : AxiosError :=
  {| axios_message := "timeout of 30000ms exceeded"; response := None |}.

(** The job is reported [failed] from the first poll on. *)
Definition job_fails : World :=
  {| create_reply := created;
     status_reply := fun _ => reports "failed";
     items_reply := fun _ => Resolved items |}.

(** The job is reported [failed] once, then [completed]. *)
Definition job_fails_then_completes : World :=
  {| create_reply := created;
     status_reply := fun k => match k with
                              | 0 => reports "failed"
                              | _ => reports "completed"
                              end;
     items_reply := fun _ => Resolved items |}.

(** running, running, completed. *)
Definition job_completes : World :=
  {| create_reply := created;
     status_reply := fun k => match k with
                              | 0 | 1 => reports "running"
                              | _ => reports "completed"
                              end;
     items_reply := fun _ => Resolved items |}.

(** The job never leaves [running]. *)
Definition job_runs : World :=
  {| create_reply := created;
     status_reply := fun _ => reports "running";
     items_reply := fun _ => Resolved items |}.

(** Every status call is rejected. *)
Definition status_down : World :=
  {| create_reply := created;
     status_reply := fun _ => Rejected unavailable;
     items_reply := fun _ => Resolved items |}.

(** The job is complete but the items call is rejected. *)
Definition items_down : World :=
  {| create_reply := created;
     status_reply := fun _ => reports "completed";
     items_reply := fun _ => Rejected unavailable |}.

(** The creation call is rejected. *)
Definition create_down : World :=
  {| create_reply := Rejected unavailable;
     status_reply := fun _ => reports "running";
     items_reply := fun _ => Resolved items |}.

Definition dispatch (q : string) : Args :=
  {| query := q; count := None; criteria := None; entityType := None;
     enrichments := None; metadata := None; waitForCompletion := false |}.

Definition full : Args :=
  {| query := "ai startups"; count := Some (Finite false 5 2);
     criteria := Some "founded after 2020"; entityType := Some "company";
     enrichments := Some [{| description := "CEO name"; format := "text" |}];
     metadata := Some [("team", JStr "research")];
     waitForCompletion := true |}.

End Sample.

(* ===================================================================== *)
(** ** Measures on a trace *)
(* ===================================================================== *)

Definition is_complete (e : event) : bool :=
  match e with Logged logger_complete => true | _ => false end.

(** The milliseconds spent in [sleep]. *)
Fixpoint slept (tr : trace) : N :=
  match tr with
  | [] => 0%N
  | Sleep ms :: rest => (ms + slept rest)%N
  | _ :: rest => slept rest
  end.

(** What the loop may do for the WebSet [websetId]: poll its status, list
    its items, sleep for [pollInterval], and log. *)
Definition loop_event (apiKey websetId : string) (e : event) : Prop :=
  match e with
  | Http k (GetWebset i) | Http k (ListItems i) => k = apiKey /\ i = websetId
  | Http _ (CreateWebset _) => False
  | Sleep ms => ms = pollInterval
  | Logged _ => True
  end.

(** A status call or an items call for [websetId], sent with [apiKey]. *)
Definition poll_of (apiKey websetId : string) (e : event) : Prop :=
  e = Http apiKey (GetWebset websetId) \/ e = Http apiKey (ListItems websetId).

(** The two failures the loop can end in. *)
Definition polls_exhausted : tool_result :=
  {| text := "WebSet operation failed: Failed to get WebSet status after 12 attempts.";
     isError := true |}.

Definition timed_out : tool_result :=
  {| text := "WebSet operation failed: WebSet research timed out.";
     isError := true |}.

(** How the rest of an invocation can end when [n] attempts are left, and
    what it has then added to the trace: the items of an answered items
    call, or one of the two failures after all [n] status calls. *)
Definition polling_outcome (w : World) (n : nat) (added : trace)
  (c : completion tool_result) : Prop :=
  (exists j data,
     items_reply w j = Resolved data /\
     c = Normal {| text := JSON_stringify data; isError := false |} /\
     1 <= calls is_items_call added /\
     calls is_complete added = 1)
  \/ ((c = Normal polls_exhausted \/ c = Normal timed_out) /\
      calls is_status_call added = n /\
      n <= S (calls is_sleep added) /\
      calls is_complete added = 0).

Module Sample2.

(** The status endpoint reports a state the handler does not know. *)
Definition job_paused : World :=
  {| create_reply := Sample.created;
     status_reply := fun _ => Sample.reports "paused";
     items_reply := fun _ => Resolved Sample.items |}.

(** The status endpoint reports [idle] at once. *)
Definition job_idle : World :=
  {| create_reply := Sample.created;
     status_reply := fun _ => Sample.reports "idle";
     items_reply := fun _ => Resolved Sample.items |}.

(** An error page instead of a JSON body. *)
Definition bad_gateway : AxiosError :=
  {| axios_message := "Request failed with status code 502";
     response := Some {| response_status := 502;
                         response_data := JStr "<html>Bad Gateway</html>" |} |}.

(** An error body whose [message] is an object with a [toString] key. *)
Definition opaque_error : AxiosError :=
  {| axios_message := "Request failed with status code 400";
     response :=
       Some {| response_status := 400;
               response_data :=
                 JObj [("message", JObj [("toString", JStr "x")])] |} |}.

Definition create_opaque : World :=
  {| create_reply := Rejected opaque_error;
     status_reply := fun _ => Sample.reports "running";
     items_reply := fun _ => Resolved Sample.items |}.

End Sample2.

(* ===================================================================== *)
(** ** Laws of the monad *)
(* ===================================================================== *)

Section MonadLaws.

Context {A B : Type}.

Lemma bind_normal (m : M A) (k : A -> M B) tr tr' a :
  m tr = (tr', Normal a) -> bind m k tr = k a tr'.
Proof. intros H. unfold bind. rewrite H. reflexivity. Qed.

Lemma bind_throw (m : M A) (k : A -> M B) tr tr' e :
  m tr = (tr', Throw e) -> bind m k tr = (tr', Throw e).
Proof. intros H. unfold bind. rewrite H. reflexivity. Qed.

Lemma bind_emit (e : event) (k : unit -> M B) tr :
  bind (emit e) k tr = k tt (tr ++ [e])%list.
Proof. reflexivity. Qed.

Lemma try_catch_normal (m : M A) (h : js_error -> M A) tr tr' a :
  m tr = (tr', Normal a) -> try_catch m h tr = (tr', Normal a).
Proof. intros H. unfold try_catch. rewrite H. reflexivity. Qed.

Lemma try_catch_throw (m : M A) (h : js_error -> M A) tr tr' e :
  m tr = (tr', Throw e) -> try_catch m h tr = h e tr'.
Proof. intros H. unfold try_catch. rewrite H. reflexivity. Qed.

End MonadLaws.

Section Appends.

Variable P : event -> Prop.

Lemma appends_ret {A : Type} (a : A) : appends P (ret a).
Proof. intros tr. exists []. simpl. rewrite app_nil_r. auto. Qed.

Lemma appends_throw {A : Type} (e : js_error) : appends P (@throw A e).
Proof. intros tr. exists []. simpl. rewrite app_nil_r. auto. Qed.

Lemma appends_emit (e : event) : P e -> appends P (emit e).
Proof. intros H tr. exists [e]. simpl. auto. Qed.

Lemma appends_bind {A B : Type} (m : M A) (k : A -> M B) :
  appends P m -> (forall a, appends P (k a)) -> appends P (bind m k).
Proof.
  intros Hm Hk tr. destruct (Hm tr) as [l1 [E1 F1]].
  unfold bind. destruct (m tr) as [tr' [a | e]]; simpl in E1; subst tr'.
  - destruct (Hk a (tr ++ l1)%list) as [l2 [E2 F2]].
    exists (l1 ++ l2)%list. rewrite E2, app_assoc. split; auto.
    apply Forall_app; auto.
  - exists l1. auto.
Qed.

Lemma appends_try_catch {A : Type} (m : M A) (h : js_error -> M A) :
  appends P m -> (forall e, appends P (h e)) -> appends P (try_catch m h).
Proof.
  intros Hm Hh tr. destruct (Hm tr) as [l1 [E1 F1]].
  unfold try_catch. destruct (m tr) as [tr' [a | e]]; simpl in E1; subst tr'.
  - exists l1. auto.
  - destruct (Hh e (tr ++ l1)%list) as [l2 [E2 F2]].
    exists (l1 ++ l2)%list. rewrite E2, app_assoc. split; auto.
    apply Forall_app; auto.
Qed.

Lemma appends_if {A : Type} (c : bool) (m1 m2 : M A) :
  appends P m1 -> appends P m2 -> appends P (if c then m1 else m2).
Proof. destruct c; auto. Qed.

End Appends.

Lemma calls_app (p : event -> bool) (l1 l2 : trace) :
  calls p (l1 ++ l2)%list = calls p l1 + calls p l2.
Proof. unfold calls. rewrite filter_app, length_app. reflexivity. Qed.

Lemma filter_none (p : event -> bool) (l : trace) :
  Forall (fun e => p e = false) l -> filter p l = [].
Proof.
  induction 1 as [| e l He _ IH]; simpl; [reflexivity |].
  rewrite He. exact IH.
Qed.

(* ===================================================================== *)
(** ** One loop iteration, case by case *)
(* ===================================================================== *)

Section Iteration.

Variable w : World.
Variables apiKey websetId : string.

Ltac run_attempt :=
  unfold poll_attempt, try_catch, poll_try, poll_catch, axios_get_webset,
    axios_get_items, axios_call, logger, sleep, bind, emit, ret, throw.

Ltac flatten_trace := repeat rewrite <- app_assoc; simpl app.

(** The status is neither completion- nor failure-equivalent: sleep, next
    iteration. *)
Lemma poll_attempt_pending attempt tr s :
  status_reply w (calls is_status_call tr) = Resolved {| status := s |} ->
  completed_status s = false ->
  failed_status s = false ->
  poll_attempt w apiKey websetId attempt tr =
  ((tr ++ [Http apiKey (GetWebset websetId); attempt_line attempt s;
           Sleep pollInterval])%list, Normal None).
Proof.
  intros Hs Hc Hf. run_attempt. rewrite Hs. cbn [status].
  rewrite Hc, Hf. flatten_trace. reflexivity.
Qed.

(** The items call of an iteration is the next items call: the status call
    and the log lines before it are not items calls. *)
Lemma items_index tr e1 e2 e3 :
  is_items_call e1 = false -> is_items_call e2 = false ->
  is_items_call e3 = false ->
  calls is_items_call (((tr ++ [e1]) ++ [e2]) ++ [e3])%list =
  calls is_items_call tr.
Proof.
  intros H1 H2 H3. rewrite !calls_app. unfold calls at 2 3 4. simpl.
  rewrite H1, H2, H3. simpl. lia.
Qed.

(** Completion-equivalent status and the items call answers: return. *)
Lemma poll_attempt_completed attempt tr s data :
  status_reply w (calls is_status_call tr) = Resolved {| status := s |} ->
  completed_status s = true ->
  items_reply w (calls is_items_call tr) = Resolved data ->
  poll_attempt w apiKey websetId attempt tr =
  ((tr ++ [Http apiKey (GetWebset websetId); attempt_line attempt s;
           Logged (logger_log ("WebSet " ++ websetId ++
                               " completed. Fetching items..."));
           Http apiKey (ListItems websetId); Logged logger_complete])%list,
   Normal (Some {| text := JSON_stringify data; isError := false |})).
Proof.
  intros Hs Hc Hi. run_attempt. rewrite Hs. cbn [status]. rewrite Hc.
  rewrite items_index by reflexivity. rewrite Hi.
  flatten_trace. reflexivity.
Qed.

(** Completion-equivalent status and the items call is rejected: the inner
    catch takes the rejection. *)
Lemma poll_attempt_items_rejected attempt tr s e :
  status_reply w (calls is_status_call tr) = Resolved {| status := s |} ->
  completed_status s = true ->
  items_reply w (calls is_items_call tr) = Rejected e ->
  poll_attempt w apiKey websetId attempt tr =
  let seen :=
    (tr ++ [Http apiKey (GetWebset websetId); attempt_line attempt s;
            Logged (logger_log ("WebSet " ++ websetId ++
                                " completed. Fetching items..."));
            Http apiKey (ListItems websetId);
            failed_line attempt (axios_message e)])%list in
  if Nat.eqb attempt maxAttempts then (seen, Throw gave_up)
  else ((seen ++ [Sleep pollInterval])%list, Normal None).
Proof.
  intros Hs Hc Hi. run_attempt. rewrite Hs. cbn [status]. rewrite Hc.
  rewrite items_index by reflexivity. rewrite Hi. cbn [error_message].
  destruct (Nat.eqb attempt maxAttempts); flatten_trace; reflexivity.
Qed.

(** The status call is rejected: the inner catch takes the rejection. *)
Lemma poll_attempt_status_rejected attempt tr e :
  status_reply w (calls is_status_call tr) = Rejected e ->
  poll_attempt w apiKey websetId attempt tr =
  let seen :=
    (tr ++ [Http apiKey (GetWebset websetId);
            failed_line attempt (axios_message e)])%list in
  if Nat.eqb attempt maxAttempts then (seen, Throw gave_up)
  else ((seen ++ [Sleep pollInterval])%list, Normal None).
Proof.
  intros Hs. run_attempt. rewrite Hs. cbn [error_message].
  destruct (Nat.eqb attempt maxAttempts); flatten_trace; reflexivity.
Qed.

(** Failure-equivalent status: the [throw] of the job failure is inside the
    inner [try], so the inner catch takes it like a rejected call. *)
Lemma poll_attempt_job_failed attempt tr s :
  status_reply w (calls is_status_call tr) = Resolved {| status := s |} ->
  completed_status s = false ->
  failed_status s = true ->
  poll_attempt w apiKey websetId attempt tr =
  let seen :=
    (tr ++ [Http apiKey (GetWebset websetId); attempt_line attempt s;
            Logged (logger_error ("WebSet " ++ websetId ++
                                  " failed with status: " ++ s));
            failed_line attempt
              ("WebSet research failed with status: " ++ s)])%list in
  if Nat.eqb attempt maxAttempts then (seen, Throw gave_up)
  else ((seen ++ [Sleep pollInterval])%list, Normal None).
Proof.
  intros Hs Hc Hf. run_attempt. rewrite Hs. cbn [status]. rewrite Hc, Hf.
  cbn [error_message].
  destruct (Nat.eqb attempt maxAttempts); flatten_trace; reflexivity.
Qed.

(** The loop, one iteration unfolded. *)
Lemma poll_loop_next attempt rest tr tr' :
  poll_attempt w apiKey websetId attempt tr = (tr', Normal None) ->
  poll_loop w apiKey websetId (attempt :: rest) tr =
  poll_loop w apiKey websetId rest tr'.
Proof. intros H. simpl. unfold bind. rewrite H. reflexivity. Qed.

Lemma poll_loop_return attempt rest tr tr' result :
  poll_attempt w apiKey websetId attempt tr = (tr', Normal (Some result)) ->
  poll_loop w apiKey websetId (attempt :: rest) tr = (tr', Normal result).
Proof. intros H. simpl. unfold bind. rewrite H. reflexivity. Qed.

Lemma poll_loop_throw attempt rest tr tr' e :
  poll_attempt w apiKey websetId attempt tr = (tr', Throw e) ->
  poll_loop w apiKey websetId (attempt :: rest) tr = (tr', Throw e).
Proof. intros H. simpl. unfold bind. rewrite H. reflexivity. Qed.

Lemma attempts_from_step attempt :
  attempt <= maxAttempts ->
  attempts_from attempt = attempt :: attempts_from (S attempt).
Proof.
  intros H. unfold attempts_from.
  replace (S maxAttempts - attempt) with (S (S maxAttempts - S attempt)) by lia.
  reflexivity.
Qed.

Lemma attempts_from_last : attempts_from maxAttempts = [maxAttempts].
Proof. reflexivity. Qed.

End Iteration.

(* ===================================================================== *)
(** ** The loop inside the outer try *)
(* ===================================================================== *)

Section Resume.

Variable w : World.
Variables apiKey websetId : string.

Lemma resume_next attempt tr tr' :
  attempt <= maxAttempts ->
  poll_attempt w apiKey websetId attempt tr = (tr', Normal None) ->
  resume w apiKey websetId attempt tr = resume w apiKey websetId (S attempt) tr'.
Proof.
  intros Hle H. unfold resume, try_catch.
  rewrite (attempts_from_step attempt Hle).
  rewrite (poll_loop_next _ _ _ _ _ _ _ H). reflexivity.
Qed.

Lemma resume_return attempt tr tr' result :
  attempt <= maxAttempts ->
  poll_attempt w apiKey websetId attempt tr = (tr', Normal (Some result)) ->
  resume w apiKey websetId attempt tr = (tr', Normal result).
Proof.
  intros Hle H. unfold resume, try_catch.
  rewrite (attempts_from_step attempt Hle).
  rewrite (poll_loop_return _ _ _ _ _ _ _ _ H). reflexivity.
Qed.

Lemma resume_throw attempt tr tr' e :
  attempt <= maxAttempts ->
  poll_attempt w apiKey websetId attempt tr = (tr', Throw e) ->
  resume w apiKey websetId attempt tr = catch_error e tr'.
Proof.
  intros Hle H. unfold resume, try_catch.
  rewrite (attempts_from_step attempt Hle).
  rewrite (poll_loop_throw _ _ _ _ _ _ _ _ H). reflexivity.
Qed.

(** Past the last attempt the loop is over: the timeout. *)
Lemma resume_exhausted tr :
  resume w apiKey websetId (S maxAttempts) tr =
  ((tr ++ [Logged (logger_error
                     ("WebSet " ++ websetId ++
                      " did not complete within the timeout period."));
           Logged (logger_error_object (Error "WebSet research timed out."))])%list,
   Normal {| text := "WebSet operation failed: WebSet research timed out.";
             isError := true |}).
Proof.
  unfold resume, try_catch, catch_error, operation_failed_text. simpl.
  unfold bind, logger, emit, throw, ret. simpl.
  rewrite <- app_assoc. reflexivity.
Qed.

Lemma resume_pending s :
  completed_status s = false ->
  failed_status s = false ->
  forall n attempt tr,
    attempt + n = S maxAttempts ->
    (forall i, i < n ->
       status_reply w (calls is_status_call tr + i) =
       Resolved {| status := s |}) ->
    resume w apiKey websetId attempt tr =
    resume w apiKey websetId (S maxAttempts)
           (tr ++ pending_rounds apiKey websetId s (seq attempt n))%list.
Proof.
  intros Hc Hf. induction n as [| n IH]; intros attempt tr Hn Hs.
  - simpl. rewrite app_nil_r. replace attempt with (S maxAttempts) by lia.
    reflexivity.
  - assert (H0 : status_reply w (calls is_status_call tr) =
                 Resolved {| status := s |}).
    { rewrite <- (Nat.add_0_r (calls is_status_call tr)). apply Hs. lia. }
    rewrite (resume_next attempt tr _ ltac:(lia)
               (poll_attempt_pending w apiKey websetId attempt tr s H0 Hc Hf)).
    rewrite IH.
    + rewrite <- app_assoc. reflexivity.
    + lia.
    + intros i Hi. rewrite calls_app.
      replace (calls is_status_call tr + _ + i)
        with (calls is_status_call tr + S i) by (unfold calls; simpl; lia).
      apply Hs. lia.
Qed.

End Resume.

Lemma apiKey_present key :
  truthy_string key = true -> apiKey_of (Some key) = key.
Proof. reflexivity. Qed.

(** A waiting invocation whose creation call answers enters the loop. *)
Lemma handler_enters_loop w key args websetId :
  truthy_string key = true ->
  waitForCompletion args = true ->
  create_reply w = Resolved {| id := websetId |} ->
  handler w (Some key) args =
  resume w key websetId 1 (entering_loop key websetId args).
Proof.
  intros Hk Hw Hc. unfold handler, handler_body, resume.
  cbn [apiKey_of]. rewrite Hk, Hw. cbn [negb].
  unfold workflow, axios_post_websets, axios_call, try_catch, bind, logger,
    emit, ret, throw.
  rewrite Hc, Hw. cbn [negb id app]. reflexivity.
Qed.

(** Whatever the service answers, the loop and the outer catch make no
    creation call. *)
Section NoSecondCreation.

Variable w : World.
Variables apiKey websetId : string.

Lemma appends_axios_call {A : Type} (r : request) (answer : reply A) :
  quiet (Http apiKey r) -> appends quiet (axios_call apiKey r answer).
Proof.
  intros Hr. unfold axios_call. apply appends_bind.
  - apply appends_emit. exact Hr.
  - intros _. destruct answer; [apply appends_ret | apply appends_throw].
Qed.

Lemma appends_get_webset : appends quiet (axios_get_webset w apiKey websetId).
Proof.
  intros tr. unfold axios_get_webset.
  apply (appends_axios_call (GetWebset websetId)). reflexivity.
Qed.

Lemma appends_get_items : appends quiet (axios_get_items w apiKey websetId).
Proof.
  intros tr. unfold axios_get_items.
  apply (appends_axios_call (ListItems websetId)). reflexivity.
Qed.

Ltac appends_step :=
  lazymatch goal with
  | |- appends _ (bind _ _) => apply appends_bind; [| intros ?]
  | |- appends _ (try_catch _ _) => apply appends_try_catch; [| intros ?]
  | |- appends _ (ret _) => apply appends_ret
  | |- appends _ (throw _) => apply appends_throw
  | |- appends _ (logger _) => apply appends_emit; reflexivity
  | |- appends _ (sleep _) => apply appends_emit; reflexivity
  | |- appends _ (axios_get_webset _ _ _) => apply appends_get_webset
  | |- appends _ (axios_get_items _ _ _) => apply appends_get_items
  | |- appends _ (if _ then _ else _) => apply appends_if
  | |- appends _ (match ?e with Axios _ => _ | Error _ => _ end) => destruct e
  | |- appends _ (match ?o with Some _ => _ | None => _ end) => destruct o
  end.

Lemma appends_catch_error e : appends quiet (catch_error e).
Proof. unfold catch_error. repeat appends_step. Qed.

Lemma appends_poll_attempt attempt :
  appends quiet (poll_attempt w apiKey websetId attempt).
Proof.
  unfold poll_attempt, poll_try, poll_catch. repeat appends_step.
Qed.

Lemma appends_poll_loop attempts :
  appends quiet (poll_loop w apiKey websetId attempts).
Proof.
  induction attempts as [| attempt rest IH]; simpl.
  - repeat appends_step.
  - apply appends_bind; [apply appends_poll_attempt |].
    intros [result |]; [apply appends_ret | exact IH].
Qed.

Lemma appends_resume attempt :
  appends quiet (resume w apiKey websetId attempt).
Proof.
  unfold resume. apply appends_try_catch.
  - apply appends_poll_loop.
  - apply appends_catch_error.
Qed.

End NoSecondCreation.

(** The trace up to and including the creation call. *)
Lemma handler_create_rejected w key args e :
  truthy_string key = true ->
  create_reply w = Rejected e ->
  handler w (Some key) args =
  catch_error (Axios e)
    [Logged (logger_start ("Query: " ++ query args ++ ", Wait: " ++
                           string_of_bool (waitForCompletion args)));
     Logged (logger_log "Sending request to create WebSet...");
     Http key (CreateWebset (websetParams args))].
Proof.
  intros Hk Hc. unfold handler, handler_body. cbn [apiKey_of]. rewrite Hk.
  cbn [negb].
  unfold workflow, axios_post_websets, axios_call, try_catch, bind, logger,
    emit, ret, throw.
  rewrite Hc. reflexivity.
Qed.

Lemma handler_dispatched w key args websetId :
  truthy_string key = true ->
  waitForCompletion args = false ->
  create_reply w = Resolved {| id := websetId |} ->
  handler w (Some key) args =
  ([Logged (logger_start ("Query: " ++ query args ++ ", Wait: false"));
    Logged (logger_log "Sending request to create WebSet...");
    Http key (CreateWebset (websetParams args));
    Logged (logger_log ("WebSet created with ID: " ++ websetId));
    Logged logger_complete],
   Normal {| text := JSON_stringify (initiated websetId); isError := false |}).
Proof.
  intros Hk Hw Hc. unfold handler, handler_body. cbn [apiKey_of].
  rewrite Hk, Hw. cbn [negb].
  unfold workflow, axios_post_websets, axios_call, try_catch, bind, logger,
    emit, ret, throw.
  rewrite Hc, Hw. reflexivity.
Qed.

(** The handler sends exactly one creation call, carrying [websetParams]. *)
Lemma handler_creation_call w key args :
  truthy_string key = true ->
  filter is_create_call (fst (handler w (Some key) args)) =
  [Http key (CreateWebset (websetParams args))].
Proof.
  intros Hk.
  destruct (create_reply w) as [[websetId] | e] eqn:Hc.
  - destruct (waitForCompletion args) eqn:Hw.
    + rewrite (handler_enters_loop w key args websetId Hk Hw Hc).
      destruct (appends_resume w key websetId 1
                  (entering_loop key websetId args)) as [added [E F]].
      rewrite E, filter_app, (filter_none _ _ F). reflexivity.
    + rewrite (handler_dispatched w key args websetId Hk Hw Hc). reflexivity.
  - rewrite (handler_create_rejected w key args e Hk Hc).
    match goal with
    | |- context [catch_error _ ?t] =>
        destruct (appends_catch_error (Axios e) t) as [added [E F]]
    end.
    rewrite E, filter_app, (filter_none _ _ F). reflexivity.
Qed.

(* ===================================================================== *)
(** ** The credential check and the creation payload *)
(* ===================================================================== *)

(** C2.  When EXA_API_KEY is absent or empty the handler returns the
    configuration error at once: the trace holds the two log lines only, so
    no HTTP call of any kind (create, status, items) and no sleep. *)
Theorem C2_missing_credential_no_http_call
  (w : World) (EXA_API_KEY : option string) (args : Args) :
  EXA_API_KEY = None \/ EXA_API_KEY = Some EmptyString ->
  handler w EXA_API_KEY args =
    ([Logged (logger_start ("Query: " ++ query args ++ ", Wait: " ++
                            string_of_bool (waitForCompletion args)));
      Logged (logger_error "EXA_API_KEY is not set.")],
     Normal {| text := "Configuration error: EXA_API_KEY is missing.";
               isError := true |})
  /\ filter is_http (fst (handler w EXA_API_KEY args)) = []
  /\ filter is_sleep (fst (handler w EXA_API_KEY args)) = [].
Proof.
  intros [-> | ->]; repeat split; reflexivity.
Qed.

Lemma C2_witness :
  (@None string = None \/ @None string = Some EmptyString) /\
  filter is_http (fst (handler Sample.job_runs None Sample.full)) = [].
Proof.
  split; [left; reflexivity |].
  apply (C2_missing_credential_no_http_call Sample.job_runs None Sample.full).
  left; reflexivity.
Defined.

Lemma has_key_count a :
  has_key "count" (search_config a) = truthy_opt truthy_number (count a).
Proof.
  unfold search_config, count_property.
  destruct (count a) as [c |]; cbn [truthy_opt];
    [destruct (truthy_number c) |]; reflexivity.
Qed.

Ltac payload_cases a :=
  unfold websetParams_properties, criteria_property, entity_property,
    enrichments_property, metadata_property;
  destruct (criteria a) as [c |]; cbn [truthy_opt];
    [destruct (truthy_string c) |];
  (destruct (entityType a) as [t |]; cbn [truthy_opt];
     [destruct (truthy_string t) |]);
  (destruct (enrichments a) as [l |]; cbn [truthy_opt];
     [destruct (nonempty_list l) |]);
  destruct (metadata a) as [m |]; reflexivity.

Lemma has_key_criteria a :
  has_key "criteria" (websetParams_properties a) =
  truthy_opt truthy_string (criteria a).
Proof. payload_cases a. Qed.

Lemma has_key_entity a :
  has_key "entity" (websetParams_properties a) =
  truthy_opt truthy_string (entityType a).
Proof. payload_cases a. Qed.

Lemma has_key_enrichments a :
  has_key "enrichments" (websetParams_properties a) =
  truthy_opt nonempty_list (enrichments a).
Proof. payload_cases a. Qed.

Lemma has_key_metadata a :
  has_key "metadata" (websetParams_properties a) =
  truthy_opt (fun _ => true) (metadata a).
Proof. payload_cases a. Qed.

(** C3.  For a request with only a query (wait flag defaulted) the payload
    is exactly [{ search: { query } }], and that is the body of the one
    creation call the handler sends.  For every request, an optional field
    that is absent leaves no key behind: no [count] in [search], no
    [criteria], [entity], [enrichments] or [metadata] in the payload. *)
Theorem C3_query_only_payload
  (w : World) (key q : string) (other : Args) :
  truthy_string key = true ->
  websetParams (query_only q) = JObj [("search", JObj [("query", JStr q)])]
  /\ filter is_create_call (fst (handler w (Some key) (query_only q))) =
     [Http key (CreateWebset (JObj [("search", JObj [("query", JStr q)])]))]
  /\ has_key "count" (search_config (set_count None other)) = false
  /\ has_key "criteria"
       (websetParams_properties (set_criteria None other)) = false
  /\ has_key "entity"
       (websetParams_properties (set_entityType None other)) = false
  /\ has_key "enrichments"
       (websetParams_properties (set_enrichments None other)) = false
  /\ has_key "metadata"
       (websetParams_properties (set_metadata None other)) = false.
Proof.
  intros Hk. split; [reflexivity |]. split.
  - apply (handler_creation_call w key (query_only q) Hk).
  - rewrite has_key_count, has_key_criteria, has_key_entity,
      has_key_enrichments, has_key_metadata.
    repeat split; reflexivity.
Qed.

Lemma C3_witness :
  truthy_string "exa-key" = true /\
  filter is_create_call
    (fst (handler Sample.job_completes (Some "exa-key") (query_only "llm labs"))) =
  [Http "exa-key"
     (CreateWebset (JObj [("search", JObj [("query", JStr "llm labs")])]))].
Proof.
  split; [reflexivity |].
  apply (C3_query_only_payload Sample.job_completes "exa-key" "llm labs"
           Sample.full).
  reflexivity.
Defined.

(** C9.  Presence of an optional field in the payload is decided by
    truthiness: a supplied count of 0 (or -0, or NaN) and a supplied empty
    criteria or entityType give the payload of the request without that
    field, and each of the three keys is present exactly when its argument
    is truthy. *)
Theorem C9_falsy_fields_are_omitted (a : Args) :
  websetParams (set_count (Some (Zero false)) a) =
    websetParams (set_count None a)
  /\ websetParams (set_count (Some (Zero true)) a) =
     websetParams (set_count None a)
  /\ websetParams (set_count (Some NaN) a) = websetParams (set_count None a)
  /\ websetParams (set_criteria (Some EmptyString) a) =
     websetParams (set_criteria None a)
  /\ websetParams (set_entityType (Some EmptyString) a) =
     websetParams (set_entityType None a)
  /\ has_key "count" (search_config a) = truthy_opt truthy_number (count a)
  /\ has_key "criteria" (websetParams_properties a) =
     truthy_opt truthy_string (criteria a)
  /\ has_key "entity" (websetParams_properties a) =
     truthy_opt truthy_string (entityType a).
Proof.
  rewrite has_key_count, has_key_criteria, has_key_entity.
  repeat split; reflexivity.
Qed.

(** C4.  With waitForCompletion false, after the creation call answers the
    handler returns [{ message, websetId, status: "running" }] at once; the
    trace ends there, with no status call and no items call. *)
Theorem C4_no_wait_returns_after_creation
  (w : World) (key : string) (args : Args) (websetId : string) :
  truthy_string key = true ->
  waitForCompletion args = false ->
  create_reply w = Resolved {| id := websetId |} ->
  snd (handler w (Some key) args) =
    Normal {| text := JSON_stringify
                        (JObj [("message",
                                JStr "WebSet research initiated successfully.");
                               ("websetId", JStr websetId);
                               ("status", JStr "running")]);
              isError := false |}
  /\ filter is_http (fst (handler w (Some key) args)) =
     [Http key (CreateWebset (websetParams args))]
  /\ calls is_status_call (fst (handler w (Some key) args)) = 0
  /\ calls is_items_call (fst (handler w (Some key) args)) = 0
  /\ filter is_sleep (fst (handler w (Some key) args)) = [].
Proof.
  intros Hk Hw Hc.
  rewrite (handler_dispatched w key args websetId Hk Hw Hc).
  repeat split; reflexivity.
Qed.

Lemma C4_witness :
  (truthy_string "exa-key" = true /\
   waitForCompletion (Sample.dispatch "llm labs") = false /\
   create_reply Sample.job_runs = Resolved {| id := "ws_1" |}) /\
  calls is_status_call
    (fst (handler Sample.job_runs (Some "exa-key") (Sample.dispatch "llm labs")))
  = 0.
Proof.
  split; [repeat split; reflexivity |].
  apply (C4_no_wait_returns_after_creation Sample.job_runs "exa-key"
           (Sample.dispatch "llm labs") "ws_1"); reflexivity.
Defined.

(* ===================================================================== *)
(** ** The polling loop *)
(* ===================================================================== *)

(** One iteration of the loop with a status that is still pending. *)
Ltac pending_step Hs :=
  match goal with
  | |- context [resume ?w ?k ?i ?a ?t] =>
      let E := fresh "E" in
      pose proof (poll_attempt_pending w k i a t _ Hs eq_refl eq_refl) as E;
      rewrite (resume_next w k i a t _ ltac:(unfold maxAttempts; lia) E);
      clear E
  end.

(** C5.  When the status calls answer running, running, completed and the
    items call answers, the handler makes exactly three status calls, each
    of the first two followed by the 5 second sleep, then exactly one items
    call, and returns the JSON text of the items response as it came. *)
Theorem C5_running_running_completed
  (w : World) (key : string) (args : Args) (websetId : string) (data : json) :
  truthy_string key = true ->
  waitForCompletion args = true ->
  create_reply w = Resolved {| id := websetId |} ->
  status_reply w 0 = Resolved {| status := "running" |} ->
  status_reply w 1 = Resolved {| status := "running" |} ->
  status_reply w 2 = Resolved {| status := "completed" |} ->
  items_reply w 0 = Resolved data ->
  calls is_status_call (fst (handler w (Some key) args)) = 3
  /\ calls is_items_call (fst (handler w (Some key) args)) = 1
  /\ effects (fst (handler w (Some key) args)) =
     [Http key (CreateWebset (websetParams args));
      Http key (GetWebset websetId); Sleep 5000;
      Http key (GetWebset websetId); Sleep 5000;
      Http key (GetWebset websetId);
      Http key (ListItems websetId)]
  /\ snd (handler w (Some key) args) =
     Normal {| text := JSON_stringify data; isError := false |}.
Proof.
  intros Hk Hw Hc H0 H1 H2 Hi.
  rewrite (handler_enters_loop w key args websetId Hk Hw Hc).
  pending_step H0. pending_step H1.
  match goal with
  | |- context [resume w key websetId 3 ?t] =>
      rewrite (resume_return w key websetId 3 t _ _
                 ltac:(unfold maxAttempts; lia)
                 (poll_attempt_completed w key websetId 3 t "completed" data
                    H2 eq_refl Hi))
  end.
  repeat split; reflexivity.
Qed.

Lemma C5_witness :
  (truthy_string "exa-key" = true /\
   waitForCompletion Sample.full = true /\
   create_reply Sample.job_completes = Resolved {| id := "ws_1" |} /\
   status_reply Sample.job_completes 0 = Resolved {| status := "running" |} /\
   status_reply Sample.job_completes 1 = Resolved {| status := "running" |} /\
   status_reply Sample.job_completes 2 = Resolved {| status := "completed" |} /\
   items_reply Sample.job_completes 0 = Resolved Sample.items) /\
  calls is_status_call
    (fst (handler Sample.job_completes (Some "exa-key") Sample.full)) = 3.
Proof.
  split; [repeat split; reflexivity |].
  apply (C5_running_running_completed Sample.job_completes "exa-key"
           Sample.full "ws_1" Sample.items); reflexivity.
Defined.

(** C6.  When the first twelve status calls all answer running, the handler
    makes exactly twelve status calls, sleeps 5 seconds after each of them
    (so between every two consecutive attempts), makes no items call, and
    returns the timeout failure. *)
Theorem C6_running_for_all_attempts
  (w : World) (key : string) (args : Args) (websetId : string) :
  truthy_string key = true ->
  waitForCompletion args = true ->
  create_reply w = Resolved {| id := websetId |} ->
  (forall k, k < 12 -> status_reply w k = Resolved {| status := "running" |}) ->
  calls is_status_call (fst (handler w (Some key) args)) = 12
  /\ calls is_items_call (fst (handler w (Some key) args)) = 0
  /\ effects (fst (handler w (Some key) args)) =
     Http key (CreateWebset (websetParams args))
     :: concat (repeat [Http key (GetWebset websetId); Sleep 5000] 12)
  /\ snd (handler w (Some key) args) =
     Normal {| text := "WebSet operation failed: WebSet research timed out.";
               isError := true |}.
Proof.
  intros Hk Hw Hc Hs.
  rewrite (handler_enters_loop w key args websetId Hk Hw Hc).
  rewrite (resume_pending w key websetId "running" eq_refl eq_refl 12 1
             (entering_loop key websetId args) eq_refl).
  - rewrite resume_exhausted. repeat split; reflexivity.
  - intros i Hi. apply Hs. exact Hi.
Qed.

Lemma C6_witness :
  (truthy_string "exa-key" = true /\
   waitForCompletion Sample.full = true /\
   create_reply Sample.job_runs = Resolved {| id := "ws_1" |} /\
   (forall k, k < 12 ->
      status_reply Sample.job_runs k = Resolved {| status := "running" |})) /\
  calls is_status_call
    (fst (handler Sample.job_runs (Some "exa-key") Sample.full)) = 12.
Proof.
  split; [repeat split; reflexivity |].
  apply (C6_running_for_all_attempts Sample.job_runs "exa-key" Sample.full
           "ws_1"); reflexivity.
Defined.

(** C7.  When the status call of attempt k is rejected by the transport,
    the rejection is logged; for k below 12 the handler sleeps 5 seconds
    and goes on with attempt k+1, and for k = 12 it stops with the failure
    "Failed to get WebSet status after 12 attempts." *)
Theorem C7_rejected_status_call_is_retried
  (w : World) (key websetId : string) (attempt : nat) (tr : trace)
  (e : AxiosError) :
  attempt <= 12 ->
  status_reply w (calls is_status_call tr) = Rejected e ->
  resume w key websetId attempt tr =
  if Nat.eqb attempt 12 then
    ((tr ++ [Http key (GetWebset websetId);
             Logged (logger_error
                       ("Polling attempt " ++ string_of_nat attempt ++
                        " failed: " ++ axios_message e));
             Logged (logger_error_object
                       (Error "Failed to get WebSet status after 12 attempts."))])%list,
     Normal {| text := "WebSet operation failed: Failed to get WebSet status after 12 attempts.";
               isError := true |})
  else
    resume w key websetId (S attempt)
      (tr ++ [Http key (GetWebset websetId);
              Logged (logger_error
                        ("Polling attempt " ++ string_of_nat attempt ++
                         " failed: " ++ axios_message e));
              Sleep 5000])%list.
Proof.
  intros Hle Hs.
  pose proof (poll_attempt_status_rejected w key websetId attempt tr e Hs) as H.
  cbv zeta in H. change maxAttempts with 12 in H.
  destruct (Nat.eqb attempt 12).
  - rewrite (resume_throw w key websetId attempt _ _ _ Hle H).
    unfold catch_error, bind, logger, emit, ret. cbn [operation_failed_text].
    rewrite <- app_assoc. reflexivity.
  - rewrite <- app_assoc in H.
    exact (resume_next w key websetId attempt _ _ Hle H).
Qed.

Lemma C7_witness :
  (3 <= 12 /\
   status_reply Sample.status_down (calls is_status_call []) =
   Rejected Sample.unavailable) /\
  resume Sample.status_down "exa-key" "ws_1" 3 [] =
  resume Sample.status_down "exa-key" "ws_1" 4
    [Http "exa-key" (GetWebset "ws_1");
     Logged (logger_error
               "Polling attempt 3 failed: Request failed with status code 503");
     Sleep 5000].
Proof.
  split; [split; [lia | reflexivity] |].
  apply (C7_rejected_status_call_is_retried Sample.status_down "exa-key"
           "ws_1" 3 [] Sample.unavailable); [lia | reflexivity].
Defined.

(** C10.  When a status call reports a completion-equivalent state and the
    items call that follows is rejected by the transport, the inner catch
    takes the rejection like a failed poll: below attempt 12 the handler
    logs it, sleeps 5 seconds and goes on with the next attempt (polling
    the status again); on attempt 12 it stops with the failure "Failed to
    get WebSet status after 12 attempts." *)
Theorem C10_rejected_items_call_is_retried
  (w : World) (key websetId : string) (attempt : nat) (tr : trace)
  (s : string) (e : AxiosError) :
  attempt <= 12 ->
  status_reply w (calls is_status_call tr) = Resolved {| status := s |} ->
  s = "completed" \/ s = "idle" ->
  items_reply w (calls is_items_call tr) = Rejected e ->
  resume w key websetId attempt tr =
  if Nat.eqb attempt 12 then
    ((tr ++ [Http key (GetWebset websetId);
             Logged (logger_log ("Attempt " ++ string_of_nat attempt ++
                                 ": WebSet status is '" ++ s ++ "'"));
             Logged (logger_log ("WebSet " ++ websetId ++
                                 " completed. Fetching items..."));
             Http key (ListItems websetId);
             Logged (logger_error
                       ("Polling attempt " ++ string_of_nat attempt ++
                        " failed: " ++ axios_message e));
             Logged (logger_error_object
                       (Error "Failed to get WebSet status after 12 attempts."))])%list,
     Normal {| text := "WebSet operation failed: Failed to get WebSet status after 12 attempts.";
               isError := true |})
  else
    resume w key websetId (S attempt)
      (tr ++ [Http key (GetWebset websetId);
              Logged (logger_log ("Attempt " ++ string_of_nat attempt ++
                                  ": WebSet status is '" ++ s ++ "'"));
              Logged (logger_log ("WebSet " ++ websetId ++
                                  " completed. Fetching items..."));
              Http key (ListItems websetId);
              Logged (logger_error
                        ("Polling attempt " ++ string_of_nat attempt ++
                         " failed: " ++ axios_message e));
              Sleep 5000])%list.
Proof.
  intros Hle Hs Hdone Hi.
  assert (Hc : completed_status s = true) by (destruct Hdone; subst; reflexivity).
  pose proof (poll_attempt_items_rejected w key websetId attempt tr s e
                Hs Hc Hi) as H.
  cbv zeta in H. change maxAttempts with 12 in H.
  destruct (Nat.eqb attempt 12).
  - rewrite (resume_throw w key websetId attempt _ _ _ Hle H).
    unfold catch_error, bind, logger, emit, ret. cbn [operation_failed_text].
    rewrite <- app_assoc. reflexivity.
  - rewrite <- app_assoc in H.
    exact (resume_next w key websetId attempt _ _ Hle H).
Qed.

Lemma C10_witness :
  (12 <= 12 /\
   status_reply Sample.items_down (calls is_status_call []) =
   Resolved {| status := "completed" |} /\
   ("completed" = "completed" \/ "completed" = "idle") /\
   items_reply Sample.items_down (calls is_items_call []) =
   Rejected Sample.unavailable) /\
  snd (resume Sample.items_down "exa-key" "ws_1" 12 []) =
  Normal {| text := "WebSet operation failed: Failed to get WebSet status after 12 attempts.";
            isError := true |}.
Proof.
  split; [repeat split; [lia | left; reflexivity] |].
  rewrite (C10_rejected_items_call_is_retried Sample.items_down "exa-key"
             "ws_1" 12 [] "completed" Sample.unavailable);
    [reflexivity | lia | reflexivity | left; reflexivity | reflexivity].
Defined.

(* ===================================================================== *)
(** ** Job failure and the error boundary *)
(* ===================================================================== *)

(** A failure-equivalent status is thrown inside the inner [try], so the
    inner catch takes it: below attempt 12 the loop goes on, and on attempt
    12 the error that leaves the loop is the one of the exhausted polls. *)
Lemma job_failure_is_retried
  (w : World) (key websetId : string) (attempt : nat) (tr : trace) (s : string) :
  attempt <= 12 ->
  status_reply w (calls is_status_call tr) = Resolved {| status := s |} ->
  s = "failed" \/ s = "error" ->
  resume w key websetId attempt tr =
  let seen :=
    (tr ++ [Http key (GetWebset websetId);
            Logged (logger_log ("Attempt " ++ string_of_nat attempt ++
                                ": WebSet status is '" ++ s ++ "'"));
            Logged (logger_error ("WebSet " ++ websetId ++
                                  " failed with status: " ++ s));
            Logged (logger_error
                      ("Polling attempt " ++ string_of_nat attempt ++
                       " failed: WebSet research failed with status: " ++ s))])%list
  in
  if Nat.eqb attempt 12 then
    catch_error (Error "Failed to get WebSet status after 12 attempts.") seen
  else resume w key websetId (S attempt) (seen ++ [Sleep 5000])%list.
Proof.
  intros Hle Hs Hfailed.
  assert (Hc : completed_status s = false)
    by (destruct Hfailed; subst; reflexivity).
  assert (Hf : failed_status s = true)
    by (destruct Hfailed; subst; reflexivity).
  pose proof (poll_attempt_job_failed w key websetId attempt tr s Hs Hc Hf) as H.
  cbv zeta in *. change maxAttempts with 12 in H.
  destruct (Nat.eqb attempt 12).
  - exact (resume_throw w key websetId attempt _ _ _ Hle H).
  - exact (resume_next w key websetId attempt _ _ Hle H).
Qed.

(** C1, on the code.  The job is reported [failed] from the first poll on:
    the handler does not stop at the first poll.  It makes all twelve
    status calls, sleeping 5 seconds between them, and the failure it
    returns is the one of the exhausted polls, which does not name the
    reported status. *)
Theorem C1_failed_status_keeps_polling :
  calls is_status_call
    (fst (handler Sample.job_fails (Some "exa-key") (query_only "llm labs")))
  = 12
  /\ calls is_sleep
       (fst (handler Sample.job_fails (Some "exa-key") (query_only "llm labs")))
     = 11
  /\ snd (handler Sample.job_fails (Some "exa-key") (query_only "llm labs")) =
     Normal {| text := "WebSet operation failed: Failed to get WebSet status after 12 attempts.";
               isError := true |}.
Proof. vm_compute. repeat split. Qed.

(** The same slip when the service reports [failed] once and [completed]
    afterwards: the second poll is made and the items are returned. *)
Example failed_then_completed_returns_items :
  calls is_status_call
    (fst (handler Sample.job_fails_then_completes (Some "exa-key")
            (query_only "llm labs"))) = 2
  /\ snd (handler Sample.job_fails_then_completes (Some "exa-key")
            (query_only "llm labs")) =
     Normal {| text := JSON_stringify Sample.items; isError := false |}.
Proof. vm_compute. split; reflexivity. Qed.

(** C8, on the code.  The service reports [failed] on the first poll and
    [completed] on the second.  The job-failure error is built and logged,
    but the handler does not return a failure outcome: the inner catch
    takes the error, the loop polls again and the result is the items, not
    error-marked. *)
Theorem C8_job_failure_returns_success :
  In (Logged (logger_error "WebSet ws_1 failed with status: failed"))
     (fst (handler Sample.job_fails_then_completes (Some "exa-key") Sample.full))
  /\ In (Logged (logger_error
                   "Polling attempt 1 failed: WebSet research failed with status: failed"))
        (fst (handler Sample.job_fails_then_completes (Some "exa-key")
                Sample.full))
  /\ snd (handler Sample.job_fails_then_completes (Some "exa-key") Sample.full) =
     Normal {| text := JSON_stringify Sample.items; isError := false |}.
Proof.
  vm_compute. repeat split; auto 12.
Qed.

(** A second way past the error boundary.  The creation call is rejected
    with a body whose [message] is an object with a [toString] key: the
    template literal of the outer catch throws, nothing catches that, and
    the invocation ends in the TypeError instead of a result. *)
Example rejected_creation_can_escape_the_catch :
  handler Sample2.create_opaque (Some "exa-key") (query_only "llm labs") =
  ([Logged (logger_start "Query: llm labs, Wait: true");
    Logged (logger_log "Sending request to create WebSet...");
    Http "exa-key"
      (CreateWebset (JObj [("search", JObj [("query", JStr "llm labs")])]));
    Logged (logger_error_object (Axios Sample2.opaque_error))],
   Throw (Error "Cannot convert object to primitive value")).
Proof. reflexivity. Qed.

(* ===================================================================== *)
(** ** More on the creation payload *)
(* ===================================================================== *)

Ltac payload_split a :=
  unfold websetParams, websetParams_properties, search_config, count_property,
    criteria_property, entity_property, enrichments_property,
    metadata_property;
  destruct (count a) as [n |]; [destruct (truthy_number n) |];
  (destruct (criteria a) as [c |]; [destruct (truthy_string c) |]);
  (destruct (entityType a) as [t |]; [destruct (truthy_string t) |]);
  (destruct (enrichments a) as [[| e l] |]);
  destruct (metadata a) as [m |]; cbn.

(** What each key of the payload holds, for every request: the query always,
    and each optional argument verbatim when it passes its guard (the entity
    type wrapped as [{ type }], the enrichments as the list of
    [{ description, format }] objects). *)
Theorem payload_lookup (a : Args) :
  get_property "search" (websetParams_properties a) =
    Some (JObj (("query", JStr (query a)) ::
                match count a with
                | Some n => if truthy_number n then [("count", JNum n)] else []
                | None => []
                end))
  /\ get_property "criteria" (websetParams_properties a) =
     match criteria a with
     | Some c => if truthy_string c then Some (JStr c) else None
     | None => None
     end
  /\ get_property "entity" (websetParams_properties a) =
     match entityType a with
     | Some t =>
         if truthy_string t then Some (JObj [("type", JStr t)]) else None
     | None => None
     end
  /\ get_property "enrichments" (websetParams_properties a) =
     match enrichments a with
     | Some (e :: l) => Some (JArr (map enrichment_json (e :: l)))
     | _ => None
     end
  /\ get_property "metadata" (websetParams_properties a) =
     match metadata a with
     | Some m => Some (JObj m)
     | None => None
     end.
Proof. payload_split a; repeat split; reflexivity. Qed.

Lemma lookup_metadata (a : Args) :
  get_property "metadata" (websetParams_properties a) =
  match metadata a with
  | Some m => Some (JObj m)
  | None => None
  end.
Proof. payload_split a; reflexivity. Qed.

(** The two guards on collections differ.  A supplied empty enrichments
    list is dropped, as if it were absent; a supplied empty metadata object
    is sent, as [metadata: {}], which is not the payload of the request
    without metadata. *)
Theorem empty_enrichments_dropped_empty_metadata_sent (a : Args) :
  websetParams (set_enrichments (Some []) a) =
    websetParams (set_enrichments None a)
  /\ get_property "metadata"
       (websetParams_properties (set_metadata (Some []) a)) = Some (JObj [])
  /\ websetParams (set_metadata (Some []) a) <>
     websetParams (set_metadata None a).
Proof.
  split; [reflexivity |]. split.
  - exact (lookup_metadata (set_metadata (Some []) a)).
  - intros H.
    assert (E : get_property "metadata"
                  (websetParams_properties (set_metadata (Some []) a)) =
                get_property "metadata"
                  (websetParams_properties (set_metadata None a))).
    { exact (f_equal (fun v => match v with
                               | JObj p => get_property "metadata" p
                               | _ => None
                               end) H). }
    rewrite !lookup_metadata in E. discriminate E.
Qed.

Ltac distinct_keys :=
  repeat (apply NoDup_cons; [cbn; intuition discriminate |]); apply NoDup_nil.

(** The payload is a well-formed object whatever the arguments: its keys
    are distinct, as are those of [search], and [search] comes first. *)
Theorem payload_keys_distinct (a : Args) :
  NoDup (keys (websetParams_properties a))
  /\ NoDup (keys (search_config a))
  /\ hd_error (keys (websetParams_properties a)) = Some "search"
  /\ hd_error (keys (search_config a)) = Some "query".
Proof.
  payload_split a; repeat split; distinct_keys.
Qed.

(* ===================================================================== *)
(** ** What any invocation does, whatever the service answers *)
(* ===================================================================== *)

Lemma catch_error_Error m tr :
  catch_error (Error m) tr =
  ((tr ++ [Logged (logger_error_object (Error m))])%list,
   Normal {| text := "WebSet operation failed: " ++ m; isError := true |}).
Proof. reflexivity. Qed.

(** The outer catch on a rejected axios call: the API error when the error
    message has a string form, the TypeError of the template literal
    otherwise. *)
Lemma catch_error_Axios a tr :
  catch_error (Axios a) tr =
  match ToString (errorMessage a) with
  | Some message =>
      ((tr ++ [Logged (logger_error_object (Axios a));
               Logged (logger_log ("Axios error (" ++ statusCode a ++ "): " ++
                                   message))])%list,
       Normal {| text := "WebSet API error (" ++ statusCode a ++ "): " ++
                         message;
                 isError := true |})
  | None =>
      ((tr ++ [Logged (logger_error_object (Axios a))])%list,
       Throw not_primitive)
  end.
Proof.
  unfold catch_error, api_error_text, bind, logger, emit, ret, throw.
  cbn [fst snd].
  destruct (ToString (errorMessage a)); [| reflexivity].
  rewrite <- app_assoc. reflexivity.
Qed.

Lemma handler_without_key w EXA_API_KEY args :
  truthy_string (apiKey_of EXA_API_KEY) = false ->
  handler w EXA_API_KEY args =
  ([Logged (logger_start ("Query: " ++ query args ++ ", Wait: " ++
                          string_of_bool (waitForCompletion args)));
    Logged (logger_error "EXA_API_KEY is not set.")],
   Normal configuration_error).
Proof.
  intros Hk. unfold handler, handler_body, bind, logger, emit, ret.
  cbv zeta. rewrite Hk. reflexivity.
Qed.

Lemma apiKey_of_truthy EXA_API_KEY :
  truthy_string (apiKey_of EXA_API_KEY) = true ->
  EXA_API_KEY = Some (apiKey_of EXA_API_KEY).
Proof. destruct EXA_API_KEY; [reflexivity | discriminate]. Qed.

Lemma slept_app (l1 l2 : trace) :
  slept (l1 ++ l2)%list = (slept l1 + slept l2)%N.
Proof.
  induction l1 as [| [k r | ms | l] l1 IH]; cbn [slept app]; rewrite ?IH; lia.
Qed.

Lemma slept_loop_events key websetId (l : trace) :
  Forall (loop_event key websetId) l ->
  slept l = (pollInterval * N.of_nat (calls is_sleep l))%N.
Proof.
  induction 1 as [| e l He _ IH]; [reflexivity |].
  destruct e as [k r | ms | lg]; unfold calls in *; cbn [slept filter is_sleep length].
  - exact IH.
  - cbn in He. subst ms. rewrite IH. lia.
  - exact IH.
Qed.

Lemma http_loop_events key websetId (l : trace) :
  Forall (loop_event key websetId) l ->
  Forall (poll_of key websetId) (filter is_http l).
Proof.
  induction 1 as [| e l He _ IH]; [constructor |].
  destruct e as [k [b | i | i] | ms | lg]; cbn [filter is_http]; try exact IH.
  - destruct He.
  - destruct He as [-> ->]. constructor; [left; reflexivity | exact IH].
  - destruct He as [-> ->]. constructor; [right; reflexivity | exact IH].
Qed.

Lemma calls_one_log (p : event -> bool) (l : log_call) :
  p (Logged l) = false -> calls p [Logged l] = 0.
Proof. intros H. unfold calls. cbn. rewrite H. reflexivity. Qed.

Section Outcome.

Variable w : World.
Variables apiKey websetId : string.

Ltac count_events := unfold calls; cbn; try reflexivity; try lia.

Ltac loop_events :=
  repeat (apply Forall_cons; [cbn; auto |]); apply Forall_nil.

(** One iteration makes exactly one status call and at most one items call;
    it sleeps exactly when it falls through to the next iteration, returns
    only the items of an answered items call, and throws only on the last
    attempt. *)
Lemma poll_attempt_outcome attempt tr :
  exists added,
    fst (poll_attempt w apiKey websetId attempt tr) = (tr ++ added)%list
    /\ Forall (loop_event apiKey websetId) added
    /\ calls is_status_call added = 1
    /\ calls is_items_call added <= 1
    /\ match snd (poll_attempt w apiKey websetId attempt tr) with
       | Normal None =>
           calls is_sleep added = 1 /\ calls is_complete added = 0
       | Normal (Some r) =>
           calls is_sleep added = 0 /\ calls is_items_call added = 1 /\
           calls is_complete added = 1 /\
           exists data,
             items_reply w (calls is_items_call tr) = Resolved data /\
             r = {| text := JSON_stringify data; isError := false |}
       | Throw e =>
           attempt = maxAttempts /\ e = gave_up /\
           calls is_sleep added = 0 /\ calls is_complete added = 0
       end.
Proof.
  destruct (status_reply w (calls is_status_call tr)) as [[s] | e] eqn:Hs.
  - destruct (completed_status s) eqn:Hc.
    + destruct (items_reply w (calls is_items_call tr)) as [data | e] eqn:Hi.
      * rewrite (poll_attempt_completed w apiKey websetId attempt tr s data
                   Hs Hc Hi).
        eexists. split; [reflexivity |]. cbn [snd].
        split; [loop_events |]. repeat split; try count_events.
        exists data. split; reflexivity.
      * rewrite (poll_attempt_items_rejected w apiKey websetId attempt tr s e
                   Hs Hc Hi).
        cbv zeta. destruct (Nat.eqb_spec attempt maxAttempts) as [E | _].
        -- eexists. split; [reflexivity |]. cbn [snd].
           split; [loop_events |]. repeat split; try count_events; try exact E.
        -- rewrite <- app_assoc. eexists. split; [reflexivity |]. cbn [snd].
           split; [loop_events |]. repeat split; count_events.
    + destruct (failed_status s) eqn:Hf.
      * rewrite (poll_attempt_job_failed w apiKey websetId attempt tr s
                   Hs Hc Hf).
        cbv zeta. destruct (Nat.eqb_spec attempt maxAttempts) as [E | _].
        -- eexists. split; [reflexivity |]. cbn [snd].
           split; [loop_events |]. repeat split; try count_events; try exact E.
        -- rewrite <- app_assoc. eexists. split; [reflexivity |]. cbn [snd].
           split; [loop_events |]. repeat split; count_events.
      * rewrite (poll_attempt_pending w apiKey websetId attempt tr s
                   Hs Hc Hf).
        eexists. split; [reflexivity |]. cbn [snd].
        split; [loop_events |]. repeat split; count_events.
  - rewrite (poll_attempt_status_rejected w apiKey websetId attempt tr e Hs).
    cbv zeta. destruct (Nat.eqb_spec attempt maxAttempts) as [E | _].
    + eexists. split; [reflexivity |]. cbn [snd].
      split; [loop_events |]. repeat split; try count_events; try exact E.
    + rewrite <- app_assoc. eexists. split; [reflexivity |]. cbn [snd].
      split; [loop_events |]. repeat split; count_events.
Qed.

(** The loop from [attempt] on, with [n] attempts left. *)
Lemma resume_outcome n :
  forall attempt tr,
    attempt + n = S maxAttempts ->
    exists added,
      fst (resume w apiKey websetId attempt tr) = (tr ++ added)%list
      /\ Forall (loop_event apiKey websetId) added
      /\ calls is_status_call added <= n
      /\ calls is_items_call added <= calls is_status_call added
      /\ calls is_sleep added <= calls is_status_call added
      /\ polling_outcome w n added (snd (resume w apiKey websetId attempt tr)).
Proof.
  induction n as [| n IH]; intros attempt tr Hn.
  - replace attempt with (S maxAttempts) by lia. rewrite resume_exhausted.
    eexists. split; [reflexivity |]. cbn [snd].
    split; [loop_events |]. repeat split; try count_events.
    right. repeat split; try count_events. right. reflexivity.
  - assert (Hle : attempt <= maxAttempts) by lia.
    destruct (poll_attempt_outcome attempt tr)
      as [a1 [E1 [F1 [S1 [I1 O1]]]]].
    destruct (poll_attempt w apiKey websetId attempt tr)
      as [tr1 [[r |] | e]] eqn:Hp; cbn [fst snd] in E1, O1; subst tr1.
    + destruct O1 as [Z1 [I1' [C1 [data [Hi ->]]]]].
      rewrite (resume_return w apiKey websetId attempt _ _ _ Hle Hp).
      exists a1. split; [reflexivity |]. cbn [snd].
      split; [exact F1 |]. repeat split; try lia.
      left. exists (calls is_items_call tr), data. repeat split; auto; lia.
    + destruct O1 as [Z1 C1].
      rewrite (resume_next w apiKey websetId attempt _ _ Hle Hp).
      destruct (IH (S attempt) (tr ++ a1)%list ltac:(lia))
        as [a2 [E2 [F2 [S2 [I2 [Z2 O2]]]]]].
      exists (a1 ++ a2)%list. rewrite E2, app_assoc.
      split; [reflexivity |]. split; [apply Forall_app; auto |].
      rewrite !calls_app. repeat split; try lia.
      destruct O2 as [[j [data [Hi [Hr [Hn1 Hn2]]]]] | [Hr [Hs [Hz Hc]]]].
      * left. exists j, data. rewrite !calls_app. repeat split; auto; lia.
      * right. rewrite !calls_app. repeat split; auto; lia.
    + destruct O1 as [-> [-> [Z1 C1]]].
      rewrite (resume_throw w apiKey websetId maxAttempts _ _ _ Hle Hp).
      unfold gave_up. rewrite catch_error_Error.
      exists (a1 ++ [Logged (logger_error_object
                              (Error "Failed to get WebSet status after 12 attempts."))])%list.
      rewrite app_assoc. split; [reflexivity |]. cbn [snd].
      split; [apply Forall_app; split; [exact F1 | loop_events] |].
      assert (n = 0) by lia. subst n.
      unfold polling_outcome.
      rewrite !calls_app.
      rewrite !(calls_one_log is_status_call), !(calls_one_log is_items_call),
        !(calls_one_log is_sleep), !(calls_one_log is_complete)
        by reflexivity.
      repeat split; try lia.
      right. repeat split; try lia. left. reflexivity.
Qed.

End Outcome.

(** With a key, an invocation goes one of three ways. *)
Lemma handler_cases w key args :
  truthy_string key = true ->
  (exists a,
     create_reply w = Rejected a /\
     handler w (Some key) args =
     match ToString (errorMessage a) with
     | Some message =>
         ([Logged (logger_start ("Query: " ++ query args ++ ", Wait: " ++
                                 string_of_bool (waitForCompletion args)));
           Logged (logger_log "Sending request to create WebSet...");
           Http key (CreateWebset (websetParams args));
           Logged (logger_error_object (Axios a));
           Logged (logger_log ("Axios error (" ++ statusCode a ++ "): " ++
                               message))],
          Normal {| text := "WebSet API error (" ++ statusCode a ++ "): " ++
                            message;
                    isError := true |})
     | None =>
         ([Logged (logger_start ("Query: " ++ query args ++ ", Wait: " ++
                                 string_of_bool (waitForCompletion args)));
           Logged (logger_log "Sending request to create WebSet...");
           Http key (CreateWebset (websetParams args));
           Logged (logger_error_object (Axios a))],
          Throw not_primitive)
     end)
  \/ (exists websetId,
        create_reply w = Resolved {| id := websetId |} /\
        waitForCompletion args = false /\
        handler w (Some key) args =
        ([Logged (logger_start ("Query: " ++ query args ++ ", Wait: false"));
          Logged (logger_log "Sending request to create WebSet...");
          Http key (CreateWebset (websetParams args));
          Logged (logger_log ("WebSet created with ID: " ++ websetId));
          Logged logger_complete],
         Normal {| text := JSON_stringify (initiated websetId);
                   isError := false |}))
  \/ (exists websetId,
        create_reply w = Resolved {| id := websetId |} /\
        waitForCompletion args = true /\
        handler w (Some key) args =
        resume w key websetId 1 (entering_loop key websetId args)).
Proof.
  intros Hk. destruct (create_reply w) as [[websetId] | a] eqn:Hc.
  - right. destruct (waitForCompletion args) eqn:Hw.
    + right. exists websetId. repeat split.
      exact (handler_enters_loop w key args websetId Hk Hw Hc).
    + left. exists websetId. repeat split.
      exact (handler_dispatched w key args websetId Hk Hw Hc).
  - left. exists a. split; [reflexivity |].
    rewrite (handler_create_rejected w key args a Hk Hc), catch_error_Axios.
    destruct (ToString (errorMessage a)); reflexivity.
Qed.

(** The HTTP calls of an invocation, whatever the service answers: the
    creation call first and only once, carrying [websetParams]; after it
    only status and items calls, only when waiting, all for the id the
    creation call returned and all with the same key. *)
Theorem http_calls_follow_creation (w : World) (key : string) (args : Args) :
  truthy_string key = true ->
  exists rest,
    filter is_http (fst (handler w (Some key) args)) =
    Http key (CreateWebset (websetParams args)) :: rest
    /\ Forall (fun e =>
                 waitForCompletion args = true /\
                 exists websetId,
                   create_reply w = Resolved {| id := websetId |} /\
                   (e = Http key (GetWebset websetId) \/
                    e = Http key (ListItems websetId))) rest.
Proof.
  intros Hk.
  destruct (handler_cases w key args Hk)
    as [[a [Hc ->]] | [[websetId [Hc [Hw ->]]] | [websetId [Hc [Hw ->]]]]].
  - exists []. destruct (ToString (errorMessage a));
      (split; [reflexivity | constructor]).
  - exists []. split; [reflexivity | constructor].
  - destruct (resume_outcome w key websetId 12 1
                (entering_loop key websetId args) eq_refl)
      as [added [E [F _]]].
    exists (filter is_http added). rewrite E, filter_app.
    split; [reflexivity |].
    pose proof (http_loop_events key websetId added F) as Hp.
    rewrite Forall_forall in Hp |- *. intros e He.
    split; [exact Hw |]. exists websetId. split; [exact Hc |].
    exact (Hp e He).
Qed.

Lemma http_calls_follow_creation_witness :
  truthy_string "exa-key" = true /\
  exists rest,
    filter is_http
      (fst (handler Sample.job_completes (Some "exa-key") Sample.full)) =
    Http "exa-key" (CreateWebset (websetParams Sample.full)) :: rest
    /\ Forall (fun e =>
                 waitForCompletion Sample.full = true /\
                 exists websetId,
                   create_reply Sample.job_completes =
                   Resolved {| id := websetId |} /\
                   (e = Http "exa-key" (GetWebset websetId) \/
                    e = Http "exa-key" (ListItems websetId))) rest.
Proof.
  split; [reflexivity |].
  apply (http_calls_follow_creation Sample.job_completes "exa-key" Sample.full).
  reflexivity.
Defined.

(** A waiting invocation whose creation call answers polls the status at
    least once and at most 12 times; it never lists the items or sleeps
    more often than it polls. *)
Theorem polling_is_bounded
  (w : World) (key : string) (args : Args) (websetId : string) :
  truthy_string key = true ->
  waitForCompletion args = true ->
  create_reply w = Resolved {| id := websetId |} ->
  1 <= calls is_status_call (fst (handler w (Some key) args)) <= 12
  /\ calls is_items_call (fst (handler w (Some key) args)) <=
     calls is_status_call (fst (handler w (Some key) args))
  /\ calls is_sleep (fst (handler w (Some key) args)) <=
     calls is_status_call (fst (handler w (Some key) args)).
Proof.
  intros Hk Hw Hc.
  rewrite (handler_enters_loop w key args websetId Hk Hw Hc).
  destruct (resume_outcome w key websetId 12 1
              (entering_loop key websetId args) eq_refl)
    as [added [E [_ [S [I [Z O]]]]]].
  rewrite E, !calls_app.
  change (calls is_status_call (entering_loop key websetId args)) with 0.
  change (calls is_items_call (entering_loop key websetId args)) with 0.
  change (calls is_sleep (entering_loop key websetId args)) with 0.
  cbn [Nat.add].
  destruct O as [[j [data [_ [_ [Hi _]]]]] | [_ [Hs _]]]; repeat split; lia.
Qed.

Lemma polling_is_bounded_witness :
  (truthy_string "exa-key" = true /\
   waitForCompletion Sample.full = true /\
   create_reply Sample.status_down = Resolved {| id := "ws_1" |}) /\
  1 <= calls is_status_call
         (fst (handler Sample.status_down (Some "exa-key") Sample.full)) <= 12.
Proof.
  split; [repeat split; reflexivity |].
  apply (polling_is_bounded Sample.status_down "exa-key" Sample.full "ws_1");
    reflexivity.
Defined.

(** The sleeps of any invocation: all in the loop, all of [pollInterval]. *)
Lemma handler_sleeps w EXA_API_KEY args :
  exists n,
    n <= 12 /\
    calls is_sleep (fst (handler w EXA_API_KEY args)) = n /\
    slept (fst (handler w EXA_API_KEY args)) = (pollInterval * N.of_nat n)%N.
Proof.
  destruct (truthy_string (apiKey_of EXA_API_KEY)) eqn:Hk.
  - rewrite (apiKey_of_truthy EXA_API_KEY Hk).
    destruct (handler_cases w (apiKey_of EXA_API_KEY) args Hk)
      as [[a [Hc ->]] | [[websetId [Hc [Hw ->]]] | [websetId [Hc [Hw ->]]]]].
    + exists 0. destruct (ToString (errorMessage a));
        repeat split; auto with arith.
    + exists 0. repeat split; auto with arith.
    + destruct (resume_outcome w (apiKey_of EXA_API_KEY) websetId 12 1
                  (entering_loop (apiKey_of EXA_API_KEY) websetId args) eq_refl)
        as [added [E [F [S [_ [Z _]]]]]].
      exists (calls is_sleep added). rewrite E, calls_app, slept_app.
      rewrite (slept_loop_events _ _ added F).
      change (slept (entering_loop (apiKey_of EXA_API_KEY) websetId args))
        with 0%N.
      change (calls is_sleep
                (entering_loop (apiKey_of EXA_API_KEY) websetId args)) with 0.
      split; [lia |]. split; [reflexivity | lia].
  - rewrite (handler_without_key w EXA_API_KEY args Hk).
    exists 0. repeat split; auto with arith.
Qed.

(** Whatever the key, the arguments and the service's answers, an
    invocation sleeps at most 12 times, 5000 ms each time: at most 60
    seconds in all. *)
Theorem sleep_budget (w : World) (EXA_API_KEY : option string) (args : Args) :
  calls is_sleep (fst (handler w EXA_API_KEY args)) <= 12
  /\ slept (fst (handler w EXA_API_KEY args)) =
     (5000 * N.of_nat (calls is_sleep (fst (handler w EXA_API_KEY args))))%N
  /\ (slept (fst (handler w EXA_API_KEY args)) <= 60000)%N.
Proof.
  destruct (handler_sleeps w EXA_API_KEY args) as [n [Hn [Hc Hs]]].
  rewrite Hs, Hc. unfold pollInterval. repeat split; lia.
Qed.

(* ===================================================================== *)
(** ** The results an invocation can return *)
(* ===================================================================== *)

(** The trace and the end of any invocation, by the path it took. *)
Lemma handler_paths w EXA_API_KEY args :
  (handler w EXA_API_KEY args =
   ([Logged (logger_start ("Query: " ++ query args ++ ", Wait: " ++
                           string_of_bool (waitForCompletion args)));
     Logged (logger_error "EXA_API_KEY is not set.")],
    Normal configuration_error))
  \/ (exists a,
        create_reply w = Rejected a /\
        calls is_complete (fst (handler w EXA_API_KEY args)) = 0 /\
        ((exists message,
            ToString (errorMessage a) = Some message /\
            snd (handler w EXA_API_KEY args) =
            Normal {| text := "WebSet API error (" ++ statusCode a ++ "): " ++
                              message;
                      isError := true |})
         \/ snd (handler w EXA_API_KEY args) = Throw not_primitive))
  \/ (exists websetId,
        create_reply w = Resolved {| id := websetId |} /\
        waitForCompletion args = false /\
        calls is_complete (fst (handler w EXA_API_KEY args)) = 1 /\
        snd (handler w EXA_API_KEY args) =
        Normal {| text := JSON_stringify (initiated websetId);
                  isError := false |})
  \/ (exists key websetId added,
        EXA_API_KEY = Some key /\
        create_reply w = Resolved {| id := websetId |} /\
        waitForCompletion args = true /\
        fst (handler w EXA_API_KEY args) =
        (entering_loop key websetId args ++ added)%list /\
        polling_outcome w 12 added (snd (handler w EXA_API_KEY args))).
Proof.
  destruct (truthy_string (apiKey_of EXA_API_KEY)) eqn:Hk.
  - right. rewrite (apiKey_of_truthy EXA_API_KEY Hk).
    destruct (handler_cases w (apiKey_of EXA_API_KEY) args Hk)
      as [[a [Hc ->]] | [[websetId [Hc [Hw ->]]] | [websetId [Hc [Hw ->]]]]].
    + left. exists a. split; [exact Hc |].
      destruct (ToString (errorMessage a)) as [message |].
      * split; [reflexivity |]. left. exists message. split; reflexivity.
      * split; [reflexivity |]. right. reflexivity.
    + right. left. exists websetId.
      repeat split; [exact Hc | exact Hw].
    + right. right.
      destruct (resume_outcome w (apiKey_of EXA_API_KEY) websetId 12 1
                  (entering_loop (apiKey_of EXA_API_KEY) websetId args) eq_refl)
        as [added [E [_ [_ [_ [_ O]]]]]].
      eexists _, websetId, added.
      repeat split; [exact Hc | exact Hw | exact E | exact O].
  - left. exact (handler_without_key w EXA_API_KEY args Hk).
Qed.

(** Once the creation call has answered with an id, the invocation returns
    one of four results, whatever the status and items calls answer: the
    dispatch notice when not waiting; when waiting, the JSON of an answered
    items call or one of the two polling failures.  In particular a
    rejected status or items call never surfaces as an API error with its
    status code. *)
Theorem results_after_creation
  (w : World) (key : string) (args : Args) (websetId : string) :
  truthy_string key = true ->
  create_reply w = Resolved {| id := websetId |} ->
  exists r,
    snd (handler w (Some key) args) = Normal r
    /\ ((waitForCompletion args = false /\
         r = {| text := JSON_stringify
                          (JObj [("message",
                                  JStr "WebSet research initiated successfully.");
                                 ("websetId", JStr websetId);
                                 ("status", JStr "running")]);
                isError := false |})
        \/ (waitForCompletion args = true /\
            ((exists j data,
                items_reply w j = Resolved data /\
                r = {| text := JSON_stringify data; isError := false |})
             \/ r = {| text := "WebSet operation failed: Failed to get WebSet status after 12 attempts.";
                       isError := true |}
             \/ r = {| text := "WebSet operation failed: WebSet research timed out.";
                       isError := true |}))).
Proof.
  intros Hk Hc. destruct (waitForCompletion args) eqn:Hw.
  - rewrite (handler_enters_loop w key args websetId Hk Hw Hc).
    destruct (resume_outcome w key websetId 12 1
                (entering_loop key websetId args) eq_refl)
      as [added [_ [_ [_ [_ [_ O]]]]]].
    destruct O as [[j [data [Hi [Hr _]]]] | [[Hr | Hr] _]];
      rewrite Hr; eexists; (split; [reflexivity |]); right;
      (split; [reflexivity |]).
    + left. exists j, data. split; [exact Hi | reflexivity].
    + right. left. reflexivity.
    + right. right. reflexivity.
  - rewrite (handler_dispatched w key args websetId Hk Hw Hc).
    eexists. split; [reflexivity |]. left. split; reflexivity.
Qed.

Lemma results_after_creation_witness :
  (truthy_string "exa-key" = true /\
   create_reply Sample.items_down = Resolved {| id := "ws_1" |}) /\
  exists r,
    snd (handler Sample.items_down (Some "exa-key") Sample.full) = Normal r
    /\ ((waitForCompletion Sample.full = false /\
         r = {| text := JSON_stringify
                          (JObj [("message",
                                  JStr "WebSet research initiated successfully.");
                                 ("websetId", JStr "ws_1");
                                 ("status", JStr "running")]);
                isError := false |})
        \/ (waitForCompletion Sample.full = true /\
            ((exists j data,
                items_reply Sample.items_down j = Resolved data /\
                r = {| text := JSON_stringify data; isError := false |})
             \/ r = {| text := "WebSet operation failed: Failed to get WebSet status after 12 attempts.";
                       isError := true |}
             \/ r = {| text := "WebSet operation failed: WebSet research timed out.";
                       isError := true |}))).
Proof.
  split; [split; reflexivity |].
  apply (results_after_creation Sample.items_down "exa-key" Sample.full "ws_1");
    reflexivity.
Defined.

(** After a successful creation call a waiting invocation reports failure
    only late: an error-marked result comes after all 12 status calls and at
    least 11 sleeps, 55 seconds, whatever the service reported. *)
Theorem failure_after_creation_is_late
  (w : World) (key : string) (args : Args) (websetId : string)
  (r : tool_result) :
  truthy_string key = true ->
  waitForCompletion args = true ->
  create_reply w = Resolved {| id := websetId |} ->
  snd (handler w (Some key) args) = Normal r ->
  isError r = true ->
  calls is_status_call (fst (handler w (Some key) args)) = 12
  /\ 11 <= calls is_sleep (fst (handler w (Some key) args))
  /\ (55000 <= slept (fst (handler w (Some key) args)))%N.
Proof.
  intros Hk Hw Hc Hr He.
  destruct (handler_sleeps w (Some key) args) as [n [_ [Hn Hs]]].
  rewrite Hs, <- Hn. clear n Hn Hs. unfold pollInterval.
  rewrite (handler_enters_loop w key args websetId Hk Hw Hc) in *.
  destruct (resume_outcome w key websetId 12 1
              (entering_loop key websetId args) eq_refl)
    as [added [E [_ [_ [_ [_ O]]]]]].
  rewrite E, !calls_app.
  change (calls is_status_call (entering_loop key websetId args)) with 0.
  change (calls is_sleep (entering_loop key websetId args)) with 0.
  cbn [Nat.add].
  destruct O as [[j [data [_ [Hr' _]]]] | [_ [Hs [Hz _]]]].
  - rewrite Hr in Hr'. injection Hr' as ->. discriminate He.
  - repeat split; lia.
Qed.

Lemma failure_after_creation_is_late_witness :
  (truthy_string "exa-key" = true /\
   waitForCompletion Sample.full = true /\
   create_reply Sample.job_fails = Resolved {| id := "ws_1" |} /\
   snd (handler Sample.job_fails (Some "exa-key") Sample.full) =
   Normal polls_exhausted /\
   isError polls_exhausted = true) /\
  calls is_status_call
    (fst (handler Sample.job_fails (Some "exa-key") Sample.full)) = 12.
Proof.
  split; [repeat split; reflexivity |].
  apply (failure_after_creation_is_late Sample.job_fails "exa-key" Sample.full
           "ws_1" polls_exhausted); reflexivity.
Defined.

(** The message the handler builds for a failed job, "WebSet research failed
    with status: ...", is never the text of an error result, whatever status
    the service reported. *)
Theorem job_failure_text_is_never_returned
  (w : World) (EXA_API_KEY : option string) (args : Args)
  (r : tool_result) (s : string) :
  snd (handler w EXA_API_KEY args) = Normal r ->
  isError r = true ->
  text r <> "WebSet operation failed: WebSet research failed with status: " ++ s.
Proof.
  intros Hr He.
  destruct (handler_paths w EXA_API_KEY args)
    as [E | [[a [_ [_ [[message [_ E]] | E]]]]
           | [[websetId [_ [_ [_ E]]]]
             | [key [websetId [added [_ [_ [_ [_ O]]]]]]]]]].
  - rewrite E in Hr. injection Hr as <-. intros H. discriminate H.
  - rewrite E in Hr. injection Hr as <-. intros H. discriminate H.
  - rewrite E in Hr. discriminate Hr.
  - rewrite E in Hr. injection Hr as <-. discriminate He.
  - destruct O as [[j [data [_ [Hr' _]]]] | [[Hr' | Hr'] _]];
      rewrite Hr in Hr'; injection Hr' as ->;
      [discriminate He | |]; intros H; discriminate H.
Qed.

Lemma job_failure_text_is_never_returned_witness :
  (snd (handler Sample.job_fails (Some "exa-key") Sample.full) =
   Normal polls_exhausted /\
   isError polls_exhausted = true) /\
  text polls_exhausted <>
  "WebSet operation failed: WebSet research failed with status: " ++ "failed".
Proof.
  split; [split; reflexivity |].
  apply (job_failure_text_is_never_returned Sample.job_fails (Some "exa-key")
           Sample.full polls_exhausted "failed"); reflexivity.
Defined.

(** [logger.complete()] is called exactly once on the two success paths and
    never on a failure path. *)
Theorem complete_is_logged_on_success_only
  (w : World) (EXA_API_KEY : option string) (args : Args) (r : tool_result) :
  snd (handler w EXA_API_KEY args) = Normal r ->
  calls is_complete (fst (handler w EXA_API_KEY args)) =
  if isError r then 0 else 1.
Proof.
  intros Hr.
  destruct (handler_paths w EXA_API_KEY args)
    as [E | [[a [_ [Ht [[message [_ E]] | E]]]]
           | [[websetId [_ [_ [Ht E]]]]
             | [key [websetId [added [_ [_ [_ [E O]]]]]]]]]].
  - rewrite E in Hr |- *. injection Hr as <-. reflexivity.
  - rewrite E in Hr. injection Hr as <-. exact Ht.
  - rewrite E in Hr. discriminate Hr.
  - rewrite E in Hr. injection Hr as <-. exact Ht.
  - rewrite E, calls_app.
    change (calls is_complete (entering_loop key websetId args)) with 0.
    cbn [Nat.add].
    destruct O as [[j [data [_ [Hr' [_ Hn]]]]] | [[Hr' | Hr'] [_ [_ Hn]]]];
      rewrite Hr in Hr'; injection Hr' as ->; exact Hn.
Qed.

Lemma complete_is_logged_on_success_only_witness :
  snd (handler Sample.job_completes (Some "exa-key") Sample.full) =
  Normal {| text := JSON_stringify Sample.items; isError := false |} /\
  calls is_complete
    (fst (handler Sample.job_completes (Some "exa-key") Sample.full)) = 1.
Proof.
  split; [reflexivity |].
  apply (complete_is_logged_on_success_only Sample.job_completes
           (Some "exa-key") Sample.full
           {| text := JSON_stringify Sample.items; isError := false |}).
  reflexivity.
Defined.

(* ===================================================================== *)
(** ** More on the loop *)
(* ===================================================================== *)

(** At any attempt, a status of [completed] or [idle] followed by an
    answered items call ends the invocation at once: no sleep, one items
    call, and the JSON of the items as the result. *)
Theorem completed_or_idle_returns_items
  (w : World) (key websetId : string) (attempt : nat) (tr : trace)
  (s : string) (data : json) :
  attempt <= 12 ->
  status_reply w (calls is_status_call tr) = Resolved {| status := s |} ->
  s = "completed" \/ s = "idle" ->
  items_reply w (calls is_items_call tr) = Resolved data ->
  resume w key websetId attempt tr =
  ((tr ++ [Http key (GetWebset websetId);
           Logged (logger_log ("Attempt " ++ string_of_nat attempt ++
                               ": WebSet status is '" ++ s ++ "'"));
           Logged (logger_log ("WebSet " ++ websetId ++
                               " completed. Fetching items..."));
           Http key (ListItems websetId);
           Logged logger_complete])%list,
   Normal {| text := JSON_stringify data; isError := false |}).
Proof.
  intros Hle Hs Hdone Hi.
  assert (Hc : completed_status s = true)
    by (destruct Hdone; subst; reflexivity).
  exact (resume_return w key websetId attempt _ _ _ Hle
           (poll_attempt_completed w key websetId attempt tr s data Hs Hc Hi)).
Qed.

Lemma completed_or_idle_returns_items_witness :
  (1 <= 12 /\
   status_reply Sample2.job_idle (calls is_status_call []) =
   Resolved {| status := "idle" |} /\
   ("idle" = "completed" \/ "idle" = "idle") /\
   items_reply Sample2.job_idle (calls is_items_call []) =
   Resolved Sample.items) /\
  snd (resume Sample2.job_idle "exa-key" "ws_1" 1 []) =
  Normal {| text := JSON_stringify Sample.items; isError := false |}.
Proof.
  split; [repeat split; [lia | right; reflexivity] |].
  rewrite (completed_or_idle_returns_items Sample2.job_idle "exa-key" "ws_1"
             1 [] "idle" Sample.items);
    [reflexivity | lia | reflexivity | right; reflexivity | reflexivity].
Defined.

(** Any status other than the four the handler names, compared exactly
    (so also [pending], the empty string, or [Completed]), is treated as
    still running: one log line, the 5 second sleep, the next attempt. *)
Theorem unknown_status_is_still_running
  (w : World) (key websetId : string) (attempt : nat) (tr : trace)
  (s : string) :
  attempt <= 12 ->
  status_reply w (calls is_status_call tr) = Resolved {| status := s |} ->
  s <> "completed" -> s <> "idle" -> s <> "failed" -> s <> "error" ->
  resume w key websetId attempt tr =
  resume w key websetId (S attempt)
    (tr ++ [Http key (GetWebset websetId);
            Logged (logger_log ("Attempt " ++ string_of_nat attempt ++
                                ": WebSet status is '" ++ s ++ "'"));
            Sleep 5000])%list.
Proof.
  intros Hle Hs H1 H2 H3 H4.
  assert (Hc : completed_status s = false).
  { unfold completed_status. apply Bool.orb_false_iff.
    split; apply String.eqb_neq; assumption. }
  assert (Hf : failed_status s = false).
  { unfold failed_status. apply Bool.orb_false_iff.
    split; apply String.eqb_neq; assumption. }
  exact (resume_next w key websetId attempt _ _ Hle
           (poll_attempt_pending w key websetId attempt tr s Hs Hc Hf)).
Qed.

Lemma unknown_status_is_still_running_witness :
  (5 <= 12 /\
   status_reply Sample2.job_paused (calls is_status_call []) =
   Resolved {| status := "paused" |} /\
   "paused" <> "completed" /\ "paused" <> "idle" /\
   "paused" <> "failed" /\ "paused" <> "error") /\
  resume Sample2.job_paused "exa-key" "ws_1" 5 [] =
  resume Sample2.job_paused "exa-key" "ws_1" 6
    [Http "exa-key" (GetWebset "ws_1");
     Logged (logger_log "Attempt 5: WebSet status is 'paused'");
     Sleep 5000].
Proof.
  split; [repeat split; try lia; discriminate |].
  apply (unknown_status_is_still_running Sample2.job_paused "exa-key" "ws_1"
           5 [] "paused"); try lia; try reflexivity; discriminate.
Defined.

(** The status endpoint stays down: as long as the next [n] status calls
    are rejected, the loop makes them all, sleeps between them and gives up
    on attempt 12 without an items call. *)
Lemma resume_status_down w key websetId n :
  forall attempt tr,
    attempt + S n = S maxAttempts ->
    (forall i, i <= n ->
       exists e, status_reply w (calls is_status_call tr + i) = Rejected e) ->
    exists added,
      resume w key websetId attempt tr =
      ((tr ++ added)%list, Normal polls_exhausted)
      /\ calls is_status_call added = S n
      /\ calls is_items_call added = 0
      /\ calls is_sleep added = n.
Proof.
  induction n as [| n IH]; intros attempt tr Hn Hs.
  - destruct (Hs 0 ltac:(lia)) as [e He]. rewrite Nat.add_0_r in He.
    assert (attempt = maxAttempts) by lia. subst attempt.
    pose proof (poll_attempt_status_rejected w key websetId maxAttempts tr e He)
      as H.
    cbv zeta in H. change (Nat.eqb maxAttempts maxAttempts) with true in H.
    cbv iota in H.
    rewrite (resume_throw w key websetId maxAttempts _ _ _ (le_n _) H).
    unfold gave_up. rewrite catch_error_Error, <- app_assoc.
    eexists. split; [reflexivity |]. repeat split.
  - destruct (Hs 0 ltac:(lia)) as [e He]. rewrite Nat.add_0_r in He.
    pose proof (poll_attempt_status_rejected w key websetId attempt tr e He)
      as H.
    cbv zeta in H.
    destruct (Nat.eqb_spec attempt maxAttempts) as [E | _]; [lia |].
    rewrite (resume_next w key websetId attempt _ _ ltac:(lia) H).
    match type of H with
    | _ = (?t, _) =>
        destruct (IH (S attempt) t ltac:(lia)) as [added [E [S1 [I1 Z1]]]]
    end.
    + intros i Hi. rewrite !calls_app.
      destruct (Hs (S i) ltac:(lia)) as [e' He'].
      exists e'. rewrite <- He'. f_equal. unfold calls. cbn. lia.
    + rewrite E, <- !app_assoc. eexists. split; [reflexivity |].
      rewrite !calls_app, S1, I1, Z1. repeat split.
Qed.

(** When all 12 status calls are rejected by the transport, the handler
    makes exactly 12 status calls, 11 sleeps and no items call, and returns
    the failure of the exhausted polls: the status code and message of the
    rejections are logged but not returned. *)
Theorem status_endpoint_down
  (w : World) (key : string) (args : Args) (websetId : string) :
  truthy_string key = true ->
  waitForCompletion args = true ->
  create_reply w = Resolved {| id := websetId |} ->
  (forall k, k < 12 -> exists e, status_reply w k = Rejected e) ->
  calls is_status_call (fst (handler w (Some key) args)) = 12
  /\ calls is_items_call (fst (handler w (Some key) args)) = 0
  /\ calls is_sleep (fst (handler w (Some key) args)) = 11
  /\ snd (handler w (Some key) args) =
     Normal {| text := "WebSet operation failed: Failed to get WebSet status after 12 attempts.";
               isError := true |}.
Proof.
  intros Hk Hw Hc Hs.
  rewrite (handler_enters_loop w key args websetId Hk Hw Hc).
  destruct (resume_status_down w key websetId 11 1
              (entering_loop key websetId args) eq_refl)
    as [added [E [S1 [I1 Z1]]]].
  - intros i Hi. apply Hs.
    change (calls is_status_call (entering_loop key websetId args)) with 0.
    lia.
  - rewrite E. cbn [fst snd]. rewrite !calls_app, S1, I1, Z1.
    repeat split.
Qed.

Lemma status_endpoint_down_witness :
  (truthy_string "exa-key" = true /\
   waitForCompletion Sample.full = true /\
   create_reply Sample.status_down = Resolved {| id := "ws_1" |} /\
   (forall k, k < 12 ->
      exists e, status_reply Sample.status_down k = Rejected e)) /\
  calls is_sleep
    (fst (handler Sample.status_down (Some "exa-key") Sample.full)) = 11.
Proof.
  assert (H : forall k, k < 12 ->
                exists e, status_reply Sample.status_down k = Rejected e)
    by (intros k _; exists Sample.unavailable; reflexivity).
  split; [repeat (split; [reflexivity |]); exact H |].
  apply (status_endpoint_down Sample.status_down "exa-key" Sample.full "ws_1");
    [reflexivity | reflexivity | reflexivity | exact H].
Defined.

(** When the first poll reports [failed] or [error], the handler sleeps and
    polls the status again, whatever the service answers afterwards. *)
Theorem failed_first_poll_is_followed_by_another
  (w : World) (key : string) (args : Args) (websetId s : string) :
  truthy_string key = true ->
  waitForCompletion args = true ->
  create_reply w = Resolved {| id := websetId |} ->
  status_reply w 0 = Resolved {| status := s |} ->
  s = "failed" \/ s = "error" ->
  2 <= calls is_status_call (fst (handler w (Some key) args))
  /\ 1 <= calls is_sleep (fst (handler w (Some key) args)).
Proof.
  intros Hk Hw Hc Hs Hfailed.
  rewrite (handler_enters_loop w key args websetId Hk Hw Hc).
  rewrite (job_failure_is_retried w key websetId 1
             (entering_loop key websetId args) s ltac:(lia) Hs Hfailed).
  cbv zeta. cbn [Nat.eqb].
  match goal with
  | |- context [resume w key websetId 2 ?t] =>
      destruct (resume_outcome w key websetId 11 2 t eq_refl)
        as [added [E [_ [S1 [I1 [_ O]]]]]]
  end.
  rewrite E, !calls_app. unfold calls at 1 2 3 5 6 7. cbn.
  destruct O as [[j [data [_ [_ [Hi _]]]]] | [_ [Hn _]]]; split; lia.
Qed.

Lemma failed_first_poll_is_followed_by_another_witness :
  (truthy_string "exa-key" = true /\
   waitForCompletion Sample.full = true /\
   create_reply Sample.job_fails_then_completes = Resolved {| id := "ws_1" |} /\
   status_reply Sample.job_fails_then_completes 0 =
   Resolved {| status := "failed" |} /\
   ("failed" = "failed" \/ "failed" = "error")) /\
  2 <= calls is_status_call
         (fst (handler Sample.job_fails_then_completes (Some "exa-key")
                 Sample.full)).
Proof.
  split; [repeat split; [left; reflexivity] |].
  apply (failed_first_poll_is_followed_by_another
           Sample.job_fails_then_completes "exa-key" Sample.full "ws_1"
           "failed"); try reflexivity.
  left; reflexivity.
Defined.

(* ===================================================================== *)
(** ** More on the API error text *)
(* ===================================================================== *)

(** When the error response has a body that is not an object (an HTML page,
    an empty body), or an object whose [message] is missing or falsy, the
    template literal does not throw and the API error text falls back to
    the message of the axios error. *)
Theorem api_error_falls_back_to_axios_message
  (msg : string) (code : N) (data : json) :
  match data with
  | JObj properties =>
      match get_property "message" properties with
      | Some m => truthy m = false
      | None => True
      end
  | _ => True
  end ->
  api_error_text
    {| axios_message := msg;
       response := Some {| response_status := code; response_data := data |} |}
  = Some ("WebSet API error (" ++
          (if N.eqb code 0 then "unknown" else string_of_N code) ++ "): " ++
          msg).
Proof.
  intros H. unfold api_error_text, statusCode, errorMessage, data_message.
  cbn [response response_status response_data axios_message].
  destruct data as [| b | x | s | l | properties]; try reflexivity.
  destruct (get_property "message" properties) as [m |]; [| reflexivity].
  rewrite H. reflexivity.
Qed.

Lemma api_error_falls_back_to_axios_message_witness :
  True /\
  api_error_text Sample2.bad_gateway =
  Some "WebSet API error (502): Request failed with status code 502".
Proof.
  split; [exact I |].
  apply (api_error_falls_back_to_axios_message
           "Request failed with status code 502" 502
           (JStr "<html>Bad Gateway</html>")).
  exact I.
Defined.

(** A rejected creation call whose error message has a string form ends the
    invocation with the API error, carrying the status code (or "unknown")
    and that message; the creation call is the only HTTP call, it is not
    retried, and nothing sleeps. *)
Theorem rejected_creation_returns_api_error
  (w : World) (key : string) (args : Args) (a : AxiosError) (message : string) :
  truthy_string key = true ->
  create_reply w = Rejected a ->
  ToString (errorMessage a) = Some message ->
  snd (handler w (Some key) args) =
    Normal {| text := "WebSet API error (" ++ statusCode a ++ "): " ++ message;
              isError := true |}
  /\ filter is_http (fst (handler w (Some key) args)) =
     [Http key (CreateWebset (websetParams args))]
  /\ filter is_sleep (fst (handler w (Some key) args)) = [].
Proof.
  intros Hk Hc Hm.
  rewrite (handler_create_rejected w key args a Hk Hc), catch_error_Axios, Hm.
  repeat split.
Qed.

Lemma rejected_creation_returns_api_error_witness :
  (truthy_string "exa-key" = true /\
   create_reply Sample.create_down = Rejected Sample.unavailable /\
   ToString (errorMessage Sample.unavailable) = Some "Service Unavailable") /\
  snd (handler Sample.create_down (Some "exa-key") Sample.full) =
  Normal {| text := "WebSet API error (503): Service Unavailable";
            isError := true |}.
Proof.
  split; [repeat split |].
  apply (rejected_creation_returns_api_error Sample.create_down "exa-key"
           Sample.full Sample.unavailable "Service Unavailable");
    reflexivity.
Defined.

(** A rejected creation call whose error message has no string form (an
    object with a [toString] key, or an array holding one) makes the
    template literal of the outer catch throw: the invocation ends in that
    throw, after logging the error, and returns no result. *)
Theorem unprintable_error_message_escapes
  (w : World) (key : string) (args : Args) (a : AxiosError) :
  truthy_string key = true ->
  create_reply w = Rejected a ->
  ToString (errorMessage a) = None ->
  (exists e, snd (handler w (Some key) args) = Throw e)
  /\ fst (handler w (Some key) args) =
     [Logged (logger_start ("Query: " ++ query args ++ ", Wait: " ++
                            string_of_bool (waitForCompletion args)));
      Logged (logger_log "Sending request to create WebSet...");
      Http key (CreateWebset (websetParams args));
      Logged (logger_error_object (Axios a))].
Proof.
  intros Hk Hc Hm.
  rewrite (handler_create_rejected w key args a Hk Hc), catch_error_Axios, Hm.
  split; [eexists |]; reflexivity.
Qed.

Lemma unprintable_error_message_escapes_witness :
  (truthy_string "exa-key" = true /\
   create_reply Sample2.create_opaque = Rejected Sample2.opaque_error /\
   ToString (errorMessage Sample2.opaque_error) = None) /\
  exists e,
    snd (handler Sample2.create_opaque (Some "exa-key") Sample.full) = Throw e.
Proof.
  split; [repeat split |].
  apply (unprintable_error_message_escapes Sample2.create_opaque "exa-key"
           Sample.full Sample2.opaque_error); reflexivity.
Defined.
